(** * Device usage dashboard: fetch and aggregation pipeline of [app.py]

    A shallow embedding of [fetch_data], [calculate_app_metrics], the
    "Load Data" handler, the dashboard script as far as it can stop a run,
    and the export of the aggregate, followed by the properties the
    specification states about them.

    Conventions of the embedding.
    - A pandas column is a list; a DataFrame with the sixteen usage columns
      is a list of [UsageRecord].
    - A missing value (NaN / None) in a text column is [None]; a present
      value is [Some s], where [s] is the text [str()] gives for it.
    - A float64 is a binary64 value of the Standard Library's [SpecFloat]
      (precision 53, maximal exponent 1024), with its correctly rounded
      operations; an int64 is an integer that wraps around at 64 bits.  A
      duration column is int64 when every cell was read as an integer and
      float64 otherwise, as pandas holds it.
    - pandas behaves as in its 2.x releases (2.1 or later for a sum that
      meets an infinity); in particular [astype(str)] turns a missing value
      into the text "nan", and the groupby sum and mean are the compensated
      sums of [group_sum] and [group_mean].  [DataFrame.round] is numpy's:
      rint(x * 10^d) / 10^d.
    - [st.write], [st.error] and [st.success] of the fetch and of the Load
      Data handler are recorded in an event log.  What the dashboard section
      draws is left out; of its plotly calls, the test that refuses two
      empty series is kept, since it stops the run. *)

From Stdlib Require Import List String Ascii ZArith Bool Lia.
From Stdlib Require Import Permutation Sorted DecimalString SpecFloat.
Import ListNotations.
Local Open Scope string_scope.
Local Open Scope Z_scope.
Local Open Scope list_scope.

(** ** binary64 *)

Definition prec : Z := 53.

Definition emax : Z := 1024.

(** Whether a triple of [SpecFloat] is a binary64 value. *)
Definition valid64 (x : spec_float) : bool := valid_binary prec emax x.

(** A triple that is no binary64 value stands for NaN. *)
Definition norm (x : spec_float) : spec_float :=
  if valid64 x then x else S754_nan.

Definition fadd (x y : spec_float) : spec_float :=
  norm (SFadd prec emax (norm x) (norm y)).

Definition fsub (x y : spec_float) : spec_float :=
  norm (SFsub prec emax (norm x) (norm y)).

Definition fmul (x y : spec_float) : spec_float :=
  norm (SFmul prec emax (norm x) (norm y)).

Definition fdiv (x y : spec_float) : spec_float :=
  norm (SFdiv prec emax (norm x) (norm y)).

(** Conversion of an integer, to the nearest binary64, ties to even. *)
Definition float_of_Z (z : Z) : spec_float :=
  norm (binary_normalize prec emax z 0 false).

Definition is_nan (x : spec_float) : bool :=
  match x with S754_nan => true | _ => false end.

Definition inf_or_nan (x : spec_float) : bool :=
  match x with
  | S754_infinity _ | S754_nan => true
  | _ => false
  end.

Definition fzero : spec_float := S754_zero false.

(** The integer nearest to n / d for d > 0, the even one of two equally
    near. *)
Definition round_half_even (n d : Z) : Z :=
  let q := n / d in
  match 2 * (n mod d) ?= d with
  | Lt => q
  | Gt => q + 1
  | Eq => if Z.even q then q else q + 1
  end.

(** numpy's [rint]: the nearest integer, ties to even, the sign kept also
    when the result is zero.  A value m * 2^e with e >= 0 is an integer
    already. *)
Definition rint (x : spec_float) : spec_float :=
  match norm x with
  | S754_finite s m e =>
      if 0 <=? e then S754_finite s m e
      else
        let n := round_half_even (Z.pos m) (2 ^ (- e)) in
        norm (binary_normalize prec emax (if s then - n else n) 0 s)
  | y => y
  end.

(** The place of a binary64 on the number line, as an integer: m * 2^e is
    sent to m * 2^(e + 1074), every exponent of a binary64 being at least
    -1074, and the infinities lie beyond every finite value.  Both zeros
    have the same place. *)
Definition rank (x : spec_float) : Z :=
  match x with
  | S754_zero _ => 0
  | S754_finite s m e =>
      let v := Z.pos m * 2 ^ (e + 1074) in if s then - v else v
  | S754_infinity s => if s then - 2 ^ 2100 else 2 ^ 2100
  | S754_nan => 0
  end.

(** The compensated summation of pandas' [group_sum] and [group_mean]:
      y = val - compensation; t = sumx + y;
      compensation = t - sumx - y, reset to 0 when it is NaN;
      sumx = t *)
Definition kahan_step (state : spec_float * spec_float) (val : spec_float)
  : spec_float * spec_float :=
  let '(sumx, compensation) := state in
  let y := fsub val compensation in
  let t := fadd sumx y in
  let c := fsub (fsub t sumx) y in
  (t, if is_nan c then fzero else c).

Definition kahan_sum (l : list spec_float) : spec_float :=
  fst (fold_left kahan_step l (fzero, fzero)).

(** ** int64 *)

Definition int64_range (z : Z) : Prop := - 2 ^ 63 <= z < 2 ^ 63.

(** The value of an integer in 64-bit two's complement. *)
Definition wrap64 (z : Z) : Z := (z + 2 ^ 63) mod 2 ^ 64 - 2 ^ 63.

Definition add64 (a b : Z) : Z := wrap64 (a + b).

(** ** Cells of a numeric column *)

Inductive number : Type :=
| Int64 (z : Z)
| Float64 (x : spec_float).

Definition NaN : number := Float64 S754_nan.

(** The value as a float64: the conversion numpy applies to an int64 that
    meets a float. *)
Definition to_float (v : number) : spec_float :=
  match v with
  | Int64 z => float_of_Z (wrap64 z)
  | Float64 x => norm x
  end.

Definition isna (v : number) : bool :=
  match v with
  | Int64 _ => false
  | Float64 x => is_nan (norm x)
  end.

Definition notna (v : number) : bool := negb (isna v).

Definition is_inf_or_nan (v : number) : bool :=
  match v with
  | Int64 _ => false
  | Float64 x => inf_or_nan (norm x)
  end.

Definition is_int64 (v : number) : bool :=
  match v with Int64 _ => true | Float64 _ => false end.


Definition float_part (v : number) : spec_float :=
  match v with Int64 z => float_of_Z (wrap64 z) | Float64 x => x end.

Definition upcast (v : number) : number := Float64 (float_part v).

(** A cell as its column holds it: the column [col] is int64 when every
    cell is an integer, and float64 otherwise, every cell converted. *)
Definition as_column (col : list number) (v : number) : number :=
  if forallb is_int64 col then v else upcast v.

(** True division by an integer (a count or the constant 3600): numpy
    converts both sides to float64; x/0 is +-inf for x <> 0 and 0/0 is
    NaN, without raising. *)
Definition fdiv_int (x : number) (n : Z) : number :=
  Float64 (fdiv (to_float x) (float_of_Z n)).

(** [round(decimals)] on one cell: an integer is left alone, a float
    becomes rint (x * 10^decimals) / 10^decimals. *)
Definition round_decimals (decimals : nat) (v : number) : number :=
  match v with
  | Int64 z => Int64 z
  | Float64 x =>
      match decimals with
      | O => Float64 (rint x)
      | S _ =>
          let scale := float_of_Z (10 ^ Z.of_nat decimals) in
          Float64 (fdiv (rint (fmul x scale)) scale)
      end
  end.

(** The values of a column that are present, as floats. *)
Definition present (l : list number) : list spec_float :=
  map to_float (filter notna l).

Definition int_of (v : number) : Z :=
  match v with Int64 z => wrap64 z | Float64 _ => 0 end.

(** The groupby sum: on an int64 column the 64-bit sum, which wraps
    around; on a float64 column the compensated sum of the present
    values. *)
Definition nansum (l : list number) : number :=
  if forallb is_int64 l then Int64 (fold_left add64 (map int_of l) 0)
  else Float64 (kahan_sum (present l)).

Definition count_notna (l : list number) : nat := List.length (filter notna l).

(** The groupby mean: the values are taken as float64, the compensated sum
    of the present ones is divided by their number; NaN when there is
    none. *)
Definition nanmean (l : list number) : number :=
  if Nat.eqb (count_notna l) 0 then NaN
  else Float64 (fdiv (kahan_sum (present l))
                     (float_of_Z (Z.of_nat (count_notna l)))).

(** Order of numbers; a comparison with NaN is false. *)
Definition float_leb (x y : number) : bool :=
  if isna x || isna y then false
  else rank (to_float x) <=? rank (to_float y).

(** ** Columns of text *)

Definition dropna (l : list (option string)) : list string :=
  flat_map (fun c => match c with Some s => [s] | None => [] end) l.

(** [Series.nunique()]: number of distinct values, missing ones excluded. *)
Definition nunique (l : list (option string)) : nat :=
  List.length (nodup string_dec (dropna l)).

(** [Series.astype(str)] on one cell. *)
Definition astype_str (c : option string) : option string :=
  match c with
  | Some s => Some s
  | None => Some "nan"
  end.

Definition cell_eqb (c : option string) (s : string) : bool :=
  match c with
  | Some t => String.eqb t s
  | None => false
  end.

(** [Series.isin(values)] on one cell. *)
Definition isin (values : list string) (c : option string) : bool :=
  match c with
  | Some s => existsb (String.eqb s) values
  | None => false
  end.

(** ** Sorting

    [sort_values] and the sorted group keys of [groupby] are modelled by an
    insertion sort, which is stable.  pandas sorts with quicksort by
    default, so the order among rows with equal keys is not fixed by the
    library; no statement below depends on it. *)

Fixpoint insert_sorted {A : Type} (le : A -> A -> bool) (x : A) (l : list A)
  : list A :=
  match l with
  | [] => [x]
  | y :: t => if le x y then x :: y :: t else y :: insert_sorted le x t
  end.

Fixpoint isort {A : Type} (le : A -> A -> bool) (l : list A) : list A :=
  match l with
  | [] => []
  | x :: t => insert_sorted le x (isort le t)
  end.

(** Comparator of [sort_values(ascending=False)] on a float column: larger
    values first, missing values last. *)
Definition float_desc_na_last (x y : number) : bool :=
  match isna x, isna y with
  | true, true => true
  | true, false => false
  | false, true => true
  | false, false => float_leb y x
  end.

(** ** The usage table *)

(** datetime64: nanoseconds since the epoch, [None] for NaT. *)
Definition datetime64 : Type := option Z.

(** One row of the table [fetch_data] returns, columns in query order. *)
Record UsageRecord : Type := {
  partner : option string;
  token : option string;
  package : option string;
  last_time_used : datetime64;
  last_time_foreground_service_used : datetime64;
  first_time_stamp : datetime64;
  last_time_stamp : datetime64;
  last_time_visible : datetime64;
  total_time_foreground_service_used : number;
  total_time_in_foreground : number;
  total_time_visible : number;
  hardware_id : option string;
  model : option string;
  os : option string;
  product : option string;
  brand : option string
}.

Definition DataFrame : Type := list UsageRecord.

(** ** calculate_app_metrics *)

(** Keys of [df.groupby('package')]: the distinct present values, sorted
    (rows whose key is missing belong to no group). *)
Definition groupby_keys (col : list (option string)) : list string :=
  isort String.leb (nodup string_dec (dropna col)).

(** The rows of one group. *)
Definition group (df : DataFrame) (key : string) : DataFrame :=
  filter (fun r => cell_eqb (package r) key) df.

(** The foreground durations, in seconds, of the rows of one package, as
    the column of the table holds them. *)
Definition foreground_seconds (table : DataFrame) (p : string)
  : list number :=
  map (as_column (map total_time_in_foreground table))
      (map total_time_in_foreground (group table p)).

(** A row of [groupby('package').agg({...}).reset_index()] after the
    columns are renamed to package, reach, total_time,
    avg_time_per_session. *)
Record AggRow : Type := {
  agg_package : string;
  agg_reach : nat;
  agg_total_time : number;
  agg_avg_time_per_session : number
}.

Definition agg_group (df : DataFrame) (key : string) : AggRow :=
  {| agg_package := key;
     agg_reach := nunique (map hardware_id (group df key));
     agg_total_time := nansum (foreground_seconds df key);
     agg_avg_time_per_session := nanmean (foreground_seconds df key) |}.

Definition groupby_agg (df : DataFrame) : list AggRow :=
  map (agg_group df) (groupby_keys (map package df)).

(** A row of the AppMetric table. *)
Record AppMetric : Type := {
  metric_package : string;
  reach : nat;
  total_time : number;
  avg_time_per_session : number;
  avg_time_per_device : number
}.

(** metrics['avg_time_per_device'] = metrics['total_time'] / metrics['reach'] *)
Definition add_avg_time_per_device (a : AggRow) : AppMetric :=
  {| metric_package := agg_package a;
     reach := agg_reach a;
     total_time := agg_total_time a;
     avg_time_per_session := agg_avg_time_per_session a;
     avg_time_per_device :=
       fdiv_int (agg_total_time a) (Z.of_nat (agg_reach a)) |}.

(** for col in [...]: metrics[col] = metrics[col] / 3600 *)
Definition seconds_to_hours (m : AppMetric) : AppMetric :=
  {| metric_package := metric_package m;
     reach := reach m;
     total_time := fdiv_int (total_time m) 3600;
     avg_time_per_session := fdiv_int (avg_time_per_session m) 3600;
     avg_time_per_device := fdiv_int (avg_time_per_device m) 3600 |}.

(** metrics.round(2): the float columns are rounded, the integer column
    [reach] and the text column are left alone. *)
Definition round_metric (decimals : nat) (m : AppMetric) : AppMetric :=
  {| metric_package := metric_package m;
     reach := reach m;
     total_time := round_decimals decimals (total_time m);
     avg_time_per_session := round_decimals decimals (avg_time_per_session m);
     avg_time_per_device := round_decimals decimals (avg_time_per_device m) |}.

(** metrics.sort_values('reach', ascending=False) *)
Definition sort_by_reach_desc (l : list AppMetric) : list AppMetric :=
  isort (fun a b => Nat.leb (reach b) (reach a)) l.

(** metrics.sort_values('avg_time_per_device', ascending=False) *)
Definition sort_by_avg_time_per_device_desc (l : list AppMetric)
  : list AppMetric :=
  isort (fun a b =>
           float_desc_na_last (avg_time_per_device a) (avg_time_per_device b))
        l.

Definition calculate_app_metrics (df : DataFrame) : list AppMetric :=
  let metrics := groupby_agg df in
  let metrics := map add_avg_time_per_device metrics in
  let metrics := map seconds_to_hours metrics in
  let metrics := map (round_metric 2) metrics in
  sort_by_reach_desc metrics.

(** The filter of the dashboard:
    df[df['partner'].isin(selected_partners) & df['brand'].isin(selected_brands)] *)
Definition filter_df (selected_partners selected_brands : list string)
  (df : DataFrame) : DataFrame :=
  filter (fun r => isin selected_partners (partner r)
                   && isin selected_brands (brand r)) df.

(** ** Exceptions, the event log and the script monad *)

(** The exceptions the script meets: a failed transport, the HTTPError of
    [raise_for_status], a body refused by [pd.read_csv] (ParserError or
    EmptyDataError), an absent column, an empty positional lookup, an
    argument refused by plotly. *)
Inductive exn : Type :=
| RequestException (msg : string)
| HTTPError (msg : string)
| ParserError (msg : string)
| KeyError (key : string)
| IndexError (msg : string)
| ValueError (msg : string).

(** [str(e)]; a KeyError prints the repr of its key. *)
Definition str_exn (e : exn) : string :=
  match e with
  | KeyError key => "'" ++ key ++ "'"
  | RequestException msg | HTTPError msg | ParserError msg | IndexError msg
  | ValueError msg =>
      msg
  end.

(** What [st.write] is given to show. *)
Inductive shown : Type :=
| ShownInt (z : Z)
| ShownText (s : string)
| ShownDict (d : list (string * string)).

Inductive ui_event : Type :=
| Written (label : string) (value : shown)
| ErrorShown (msg : string)
| SuccessShown (msg : string).

Inductive result (A : Type) : Type :=
| Ok (a : A)
| Raise (e : exn).

Arguments Ok {A} a.
Arguments Raise {A} e.

(** A computation of the script: the events it has put on the page, and
    either a value or the exception that ended it. *)
Definition script (A : Type) : Type := list ui_event * result A.

Definition ret {A : Type} (a : A) : script A := ([], Ok a).

Definition raise {A : Type} (e : exn) : script A := ([], Raise e).

Definition bind {A B : Type} (m : script A) (f : A -> script B) : script B :=
  match m with
  | (ev, Ok a) => let '(ev', r) := f a in (ev ++ ev', r)
  | (ev, Raise e) => (ev, Raise e)
  end.

(** try: m  except Exception as e: handler e *)
Definition try_except {A : Type} (m : script A) (handler : exn -> script A)
  : script A :=
  match m with
  | (ev, Raise e) => let '(ev', r) := handler e in (ev ++ ev', r)
  | (ev, Ok a) => (ev, Ok a)
  end.

Definition lift {A : Type} (r : result A) : script A := ([], r).

Notation "x <- m ;; k" := (bind m (fun x => k))
  (at level 61, m at next level, right associativity).
Notation "m ;;; k" := (bind m (fun _ => k))
  (at level 61, right associativity).

Definition st_write (label : string) (value : shown) : script unit :=
  ([Written label value], Ok tt).

Definition st_error (msg : string) : script unit :=
  ([ErrorShown msg], Ok tt).

Definition st_success (msg : string) : script unit :=
  ([SuccessShown msg], Ok tt).

Definition events {A : Type} (m : script A) : list ui_event := fst m.

Definition outcome {A : Type} (m : script A) : result A := snd m.

(** ** Text helpers *)

Definition string_of_Z (z : Z) : string := NilZero.string_of_int (Z.to_int z).

Definition string_of_nat (n : nat) : string := string_of_Z (Z.of_nat n).

(** Digits from the least significant one, a comma after every third. *)
Fixpoint commas_rev (digits : list ascii) (n : nat) : list ascii :=
  match digits with
  | [] => []
  | c :: t =>
      match t, n with
      | [], _ => [c]
      | _, O => c :: ","%char :: commas_rev t 2
      | _, S n' => c :: commas_rev t n'
      end
  end.

(** f"{n:,}" *)
Definition format_thousands (n : nat) : string :=
  string_of_list_ascii
    (rev (commas_rev (rev (list_ascii_of_string (string_of_nat n))) 2)).

Definition pad2 (z : Z) : string :=
  if z <? 10 then "0" ++ string_of_Z z else string_of_Z z.

Definition pad4 (z : Z) : string :=
  if z <? 10 then "000" ++ string_of_Z z
  else if z <? 100 then "00" ++ string_of_Z z
  else if z <? 1000 then "0" ++ string_of_Z z
  else string_of_Z z.

(** A calendar date as [st.date_input] returns it. *)
Record date : Type := { year : Z; month : Z; day : Z }.

(** [str(d)] for a date: YYYY-MM-DD. *)
Definition isoformat (d : date) : string :=
  pad4 (year d) ++ "-" ++ pad2 (month d) ++ "-" ++ pad2 (day d).

(** ** The HTTP exchange *)

Record Request : Type := {
  req_url : string;
  req_params : list (string * string);
  req_data : string;
  req_headers : list (string * string)
}.

Record Response : Type := {
  status_code : Z;
  reason : string;
  url : string;
  headers : list (string * string);
  text : string
}.

(** [Response.raise_for_status()] of requests: an HTTPError for a status in
    400..599, nothing otherwise. *)
Definition raise_for_status (r : Response) : script unit :=
  if (400 <=? status_code r) && (status_code r <? 500) then
    raise (HTTPError (string_of_Z (status_code r) ++ " Client Error: "
                      ++ reason r ++ " for url: " ++ url r))
  else if (500 <=? status_code r) && (status_code r <? 600) then
    raise (HTTPError (string_of_Z (status_code r) ++ " Server Error: "
                      ++ reason r ++ " for url: " ++ url r))
  else ret tt.

(** [Response.ok] of requests. *)
Definition response_ok (r : Response) : bool :=
  negb ((400 <=? status_code r) && (status_code r <? 600)).

(** ** The table as [pd.read_csv] delivers it *)

(** Column names from the header row and the cells of each data row, a
    missing cell being [None]. *)
Record RawFrame : Type := {
  columns : list string;
  rows : list (list (option string))
}.

Fixpoint index_of (c : string) (cols : list string) : option nat :=
  match cols with
  | [] => None
  | x :: t =>
      if String.eqb x c then Some O
      else match index_of c t with
           | Some i => Some (S i)
           | None => None
           end
  end.

(** The cell of [row] under column [c]; a row shorter than the header is
    padded with missing cells. *)
Definition raw_cell (cols : list string) (row : list (option string))
  (c : string) : option string :=
  match index_of c cols with
  | Some i => nth i row None
  | None => None
  end.

(** The cells of column [c], from the first row to the last. *)
Definition raw_column (raw : RawFrame) (c : string) : list (option string) :=
  map (fun row => raw_cell (columns raw) row c) (rows raw).

Definition timestamp_cols : list string :=
  ["last_time_used"; "last_time_foreground_service_used";
   "first_time_stamp"; "last_time_stamp"; "last_time_visible"].

Definition numeric_cols : list string :=
  ["total_time_foreground_service_used";
   "total_time_in_foreground";
   "total_time_visible"].

Definition string_cols : list string :=
  ["partner"; "token"; "package"; "hardware_id"; "model"; "os"; "product";
   "brand"].

(** [df[col]] raises KeyError when the column is absent.  The three loops
    of [fetch_data] read their columns in this order, so the first absent
    one is the one reported. *)
Definition require_columns (raw : RawFrame) (cols : list string)
  : script unit :=
  match find (fun c => negb (existsb (String.eqb c) (columns raw))) cols with
  | Some c => raise (KeyError c)
  | None => ret tt
  end.

(** Cell-wise conversions of [fetch_data], given what the pandas parsers
    recognise in a text. *)
Definition to_datetime_coerce (parse : string -> datetime64)
  (c : option string) : datetime64 :=
  match c with
  | Some s => parse s
  | None => None
  end.

Definition to_numeric_coerce (parse : string -> option number)
  (c : option string) : number :=
  match c with
  | Some s => match parse s with
              | Some x => x
              | None => NaN
              end
  | None => NaN
  end.

(** [pd.to_numeric(df[col], errors='coerce')] on the cell [c] of the
    column [col]: the result column is int64 when every cell is read as an
    integer; one missing, malformed or fractional cell makes it float64. *)
Definition to_numeric_column (parse : string -> option number)
  (col : list (option string)) (c : option string) : number :=
  as_column (map (to_numeric_coerce parse) col) (to_numeric_coerce parse c).

(** ** Readers used to run the examples

    [pd.read_csv], [pd.to_datetime] and [pd.to_numeric] are parameters of
    the development.  The readers below cover plain inputs and serve to
    evaluate the definitions on concrete responses. *)

Fixpoint split_on (sep : ascii) (s : string) : list string :=
  match s with
  | EmptyString => [EmptyString]
  | String c t =>
      if Ascii.eqb c sep then EmptyString :: split_on sep t
      else match split_on sep t with
           | h :: r => String c h :: r
           | [] => [String c EmptyString]
           end
  end.

(** The texts [pd.read_csv] takes for a missing value by default. *)
Definition na_values : list string :=
  [""; "#N/A"; "#N/A N/A"; "#NA"; "-1.#IND"; "-1.#QNAN"; "-NaN"; "-nan";
   "1.#IND"; "1.#QNAN"; "<NA>"; "N/A"; "NA"; "NULL"; "NaN"; "None"; "n/a";
   "nan"; "null"].

Definition is_na_value (s : string) : bool :=
  existsb (String.eqb s) na_values.

Definition na_cell (s : string) : option string :=
  if is_na_value s then None else Some s.

(** Comma-separated text with a header line and no quoting: blank lines
    are skipped, a body without any line or with a row longer than the
    header is refused. *)
Definition read_csv_unquoted (body : string) : result RawFrame :=
  let lines :=
    filter (fun l => negb (String.eqb l "")) (split_on "010"%char body) in
  match lines with
  | [] => Raise (ParserError "No columns to parse from file")
  | header :: data =>
      let cols := split_on ","%char header in
      let cells := map (split_on ","%char) data in
      if existsb (fun r => Nat.ltb (List.length cols) (List.length r)) cells
      then Raise (ParserError "Error tokenizing data")
      else Ok {| columns := cols; rows := map (map na_cell) cells |}
  end.

Definition digit_value (c : ascii) : option Z :=
  let n := Z.of_nat (nat_of_ascii c) in
  if (48 <=? n) && (n <=? 57) then Some (n - 48) else None.



Fixpoint parse_digits (acc : Z) (s : string) : option Z :=
  match s with
  | EmptyString => Some acc
  | String c t =>
      match digit_value c with
      | Some d => parse_digits (10 * acc + d) t
      | None => None
      end
  end.

(** Decimal integers within the int64 range, with an optional minus
    sign. *)
Definition read_integer (s : string) : option Z :=
  let in_range z :=
    if (- 2 ^ 63 <=? z) && (z <? 2 ^ 63) then Some z else None in
  match s with
  | EmptyString => None
  | String "-"%char EmptyString => None
  | String "-"%char t =>
      match parse_digits 0 t with
      | Some z => in_range (- z)
      | None => None
      end
  | _ =>
      match parse_digits 0 s with
      | Some z => in_range z
      | None => None
      end
  end.

(** A numeric reader that recognises the decimal integers only. *)
Definition to_numeric_integer (s : string) : option number :=
  option_map Int64 (read_integer s).

(** A datetime parser that recognises no text; the timestamp cells of the
    examples are empty, hence NaT whatever the parser. *)
Definition to_datetime_nothing (s : string) : datetime64 := None.

(** ** fetch_data *)

Definition build_query (start_date end_date : date) : string :=
  "
    SELECT 
        partner,
        token,
        package,
        last_time_used,
        last_time_foreground_service_used,
        first_time_stamp,
        last_time_stamp,
        last_time_visible,
        total_time_foreground_service_used,
        total_time_in_foreground,
        total_time_visible,
        device['hardware_id'] as hardware_id,
        device['model'] as model,
        device['os'] as os,
        device['product'] as product,
        device['brand'] as brand
    FROM device_usage_stat
    WHERE last_time_used BETWEEN '" ++ isoformat start_date ++ "' AND '"
  ++ isoformat end_date ++ "'
    FORMAT CSVWithNames
    ".

(** st.session_state *)
Record SessionState : Type := {
  data_loaded : bool;
  df : option DataFrame;
  debug_mode : option bool
}.

(** The state the script initialises on its first run. *)
Definition initial_state : SessionState :=
  {| data_loaded := false; df := None; debug_mode := None |}.

(** st.session_state.get('debug_mode', False) *)
Definition get_debug_mode (s : SessionState) : bool :=
  match debug_mode s with
  | Some b => b
  | None => false
  end.

(** [df.empty] *)
Definition empty (table : DataFrame) : bool :=
  match table with
  | [] => true
  | _ :: _ => false
  end.

(** app_metrics.iloc[0] *)
Definition iloc0 {A : Type} (l : list A) : script A :=
  match l with
  | x :: _ => ret x
  | [] => raise (IndexError "single positional indexer is out-of-bounds")
  end.

(** What the Quick Insights panel of the sidebar shows. *)
Record QuickInsights : Type := {
  top_app : AppMetric;
  most_engaged_app : AppMetric;
  total_apps : nat
}.

(** ** The figures and series of the dashboard *)

Definition option_string_dec (a b : option string) : {a = b} + {a <> b}.
Proof. decide equality. apply string_dec. Defined.

(** [Series.unique()]: the distinct values in order of first appearance; a
    missing value is one of them. *)
Definition unique (col : list (option string)) : list (option string) :=
  rev (nodup option_string_dec (rev col)).

(** The options of a sidebar filter, sorted(df[c].unique().tolist()).  In
    a table that [fetch_data] returned no value is missing; a missing value
    is left out here. *)
Definition filter_options (col : list (option string)) : list string :=
  isort String.leb (dropna (unique col)).

(** "Total Unique Devices": len(filtered_df['hardware_id'].unique()) *)
Definition total_unique_devices (table : DataFrame) : nat :=
  List.length (unique (map hardware_id table)).

(** "Total Apps Tracked": len(filtered_df['package'].unique()) *)
Definition total_apps_tracked (table : DataFrame) : nat :=
  List.length (unique (map package table)).

(** timedelta(days=7) in nanoseconds. *)
Definition seven_days : Z := 7 * 86400 * 1000000000.

(** filtered_df['last_time_used'] >= now - timedelta(days=7), on one row;
    a comparison with NaT is false. *)
Definition used_since (bound : Z) (r : UsageRecord) : bool :=
  match last_time_used r with
  | Some ts => bound <=? ts
  | None => false
  end.

(** "Active Devices (7d)", [now] being datetime.now(). *)
Definition active_devices (now : Z) (table : DataFrame) : nat :=
  nunique (map hardware_id (filter (used_since (now - seven_days)) table)).

(** [DataFrame.head(n)] *)
Definition head {A : Type} (n : nat) (l : list A) : list A := firstn n l.


Definition sort_by_float_desc (column : AppMetric -> number)
  (l : list AppMetric) : list AppMetric :=
  isort (fun a b => float_desc_na_last (column a) (column b)) l.




(** [Series.value_counts()]: each present value with the number of rows
    holding it, the most frequent first. *)
Definition value_counts (col : list (option string)) : list (string * nat) :=
  isort (fun a b => Nat.leb (snd b) (snd a))
        (map (fun v => (v, count_occ string_dec (dropna col) v))
             (dropna (unique col))).

Definition ns_per_hour : Z := 3600 * 1000000000.

(** [.dt.hour] of a timestamp. *)
Definition hour_of (ts : Z) : Z := (ts / ns_per_hour) mod 24.

Definition used_in_hour (h : Z) (r : UsageRecord) : bool :=
  match last_time_used r with
  | Some ts => hour_of ts =? h
  | None => false
  end.

(** The hours that are keys of
    filtered_df.groupby(filtered_df['last_time_used'].dt.hour): those of
    the rows with a timestamp, in ascending order. *)
Definition hours_used (table : DataFrame) : list Z :=
  isort Z.leb
    (nodup Z.eq_dec
       (flat_map (fun r => match last_time_used r with
                           | Some ts => [hour_of ts]
                           | None => []
                           end) table)).

(** hourly_usage: mean foreground seconds per hour of the day. *)
Definition hourly_usage (table : DataFrame) : list (Z * number) :=
  map (fun h =>
         (h, nanmean (map (as_column (map total_time_in_foreground table))
                          (map total_time_in_foreground
                               (filter (used_in_hour h) table)))))
      (hours_used table).

(** plotly express, called with two series [x] and [y] and no data frame
    ([px.line] and [px.bar] in the script): each series is tested for
    being a list of column references, a test an empty series passes, and
    two such lists are refused. *)
Definition px_cartesian {A B : Type} (x : list A) (y : list B)
  : script unit :=
  match x, y with
  | [], [] =>
      raise (ValueError
               "Cannot accept list of column references or list of columns for both `x` and `y`.")
  | _, _ => ret tt
  end.

(** The invariant of the session: when the loaded flag is set, a table
    with at least one row is held. *)
Definition session_ok (s : SessionState) : Prop :=
  data_loaded s = true -> exists table, df s = Some table /\ table <> [].

(** The environment of the script: what the operating system, the network
    and the pandas parsers answer. *)
Record Env : Type := {
  (** os.getenv *)
  getenv : string -> option string;
  (** The dictionary of [config.py], which is not among the sources at
      hand; it is read at the keys 'url' and 'database'. *)
  CLICKHOUSE_CONFIG : string -> string;
  (** requests.post: a response, or the exception of a failed transport. *)
  requests_post : Request -> result Response;
  (** pd.read_csv on the response text: a table, or the parser's
      exception. *)
  read_csv : string -> result RawFrame;
  (** What pd.to_datetime and pd.to_numeric recognise in one text; a text
      read as an integer gives an [Int64], any other number a
      [Float64]. *)
  to_datetime : string -> datetime64;
  to_numeric : string -> option number
}.

Section Dashboard.

Variable env : Env.

(** os.getenv(name) or default: an unset or empty variable gives the
    default. *)
Definition getenv_or (name default : string) : string :=
  match getenv env name with
  | Some v => if String.eqb v "" then default else v
  | None => default
  end.

(** One row after the three conversion loops.  The loops work column by
    column; a timestamp or a text cell depends on the cell of the same row
    and column only, a duration cell also on whether its column holds
    integers only, so the table is built row by row here.  Columns of the
    response other than the sixteen named ones are not kept. *)
Definition convert_row (raw : RawFrame) (row : list (option string))
  : UsageRecord :=
  let cols := columns raw in
  let ts c := to_datetime_coerce (to_datetime env) (raw_cell cols row c) in
  let num c :=
    to_numeric_column (to_numeric env) (raw_column raw c)
                      (raw_cell cols row c) in
  let str c := astype_str (raw_cell cols row c) in
  {| partner := str "partner";
     token := str "token";
     package := str "package";
     last_time_used := ts "last_time_used";
     last_time_foreground_service_used :=
       ts "last_time_foreground_service_used";
     first_time_stamp := ts "first_time_stamp";
     last_time_stamp := ts "last_time_stamp";
     last_time_visible := ts "last_time_visible";
     total_time_foreground_service_used :=
       num "total_time_foreground_service_used";
     total_time_in_foreground := num "total_time_in_foreground";
     total_time_visible := num "total_time_visible";
     hardware_id := str "hardware_id";
     model := str "model";
     os := str "os";
     product := str "product";
     brand := str "brand" |}.

Definition convert_frame (raw : RawFrame) : DataFrame :=
  map (convert_row raw) (rows raw).

Definition fetch_request (start_date end_date : date) : Request :=
  {| req_url := getenv_or "CLICKHOUSE_URL" (CLICKHOUSE_CONFIG env "url");
     req_params :=
       [("database",
         getenv_or "CLICKHOUSE_DATABASE" (CLICKHOUSE_CONFIG env "database"))];
     req_data := build_query start_date end_date;
     req_headers := [("Content-Type", "application/x-www-form-urlencoded")] |}.

(** The body of the try block of [fetch_data]. *)
Definition fetch_data_try (s : SessionState) (start_date end_date : date)
  : script (option DataFrame) :=
  response <- lift (requests_post env (fetch_request start_date end_date)) ;;
  (if get_debug_mode s then
     st_write "Response Status Code:" (ShownInt (status_code response)) ;;;
     st_write "Response Headers:" (ShownDict (headers response)) ;;;
     st_write "Response Preview:"
       (ShownText (substring 0 500 (text response)))
   else ret tt) ;;;
  raise_for_status response ;;;
  raw <- lift (read_csv env (text response)) ;;
  require_columns raw timestamp_cols ;;;
  require_columns raw numeric_cols ;;;
  require_columns raw string_cols ;;;
  ret (Some (convert_frame raw)).

Definition fetch_data (s : SessionState) (start_date end_date : date)
  : script (option DataFrame) :=
  try_except (fetch_data_try s start_date end_date)
    (fun e => st_error ("Error: " ++ str_exn e) ;;; ret None).

(** ** The "Load Data" button *)

Definition load_data_clicked (s : SessionState) (start_date end_date : date)
  : script SessionState :=
  fetched <- fetch_data s start_date end_date ;;
  match fetched with
  | Some table =>
      if negb (empty table) then
        st_success ("Successfully loaded "
                    ++ format_thousands (List.length table) ++ " records") ;;;
        ret {| data_loaded := true;
               df := Some table;
               debug_mode := debug_mode s |}
      else
        st_error "Failed to load data" ;;;
        ret {| data_loaded := false; df := df s; debug_mode := debug_mode s |}
  | None =>
      st_error "Failed to load data" ;;;
      ret {| data_loaded := false; df := df s; debug_mode := debug_mode s |}
  end.

(** ** The dashboard

    The part of the script under
    [if st.session_state.data_loaded and st.session_state.df is not None],
    with the search box empty and "Prepare Download" not clicked, as far
    as it decides how the run ends: the debug checkbox is stored, the
    table is filtered and aggregated, plotly is given the hourly series
    (line 382), the OS counts (line 448) and the model counts (line 463),
    and the Quick Insights panel reads the first row of the aggregate
    twice (lines 493 and 494).  The calls that only draw are left out, and
    with them two tests of the drawing libraries that are not represented:
    [px.scatter] (line 297) refuses a marker size that is NaN or negative,
    and the styled table (line 357) needs matplotlib.  So a run of the
    script that ends normally ends normally here, with these values; the
    converse holds when no row of the aggregate has a NaN or negative
    avg_time_per_device.  A run that raises returns no state. *)
Definition render_dashboard (s : SessionState) (debug_checkbox : bool)
  (selected_partners selected_brands : list string)
  : script (SessionState * option QuickInsights) :=
  match data_loaded s, df s with
  | true, Some table =>
      let s' := {| data_loaded := data_loaded s;
                   df := df s;
                   debug_mode := Some debug_checkbox |} in
      let filtered_df := filter_df selected_partners selected_brands table in
      let app_metrics := calculate_app_metrics filtered_df in
      let hourly := hourly_usage filtered_df in
      let os_stats := value_counts (map os filtered_df) in
      let model_stats := head 10 (value_counts (map model filtered_df)) in
      px_cartesian (map fst hourly)
                   (map (fun point => fdiv_int (snd point) 3600) hourly) ;;;
      px_cartesian (map fst os_stats) (map snd os_stats) ;;;
      px_cartesian (map snd model_stats) (map fst model_stats) ;;;
      top <- iloc0 app_metrics ;;
      most_engaged <- iloc0 (sort_by_avg_time_per_device_desc app_metrics) ;;
      ret (s', Some {| top_app := top;
                       most_engaged_app := most_engaged;
                       total_apps := List.length app_metrics |})
  | _, _ => ret (s, None)
  end.

(** One run of the script, as Streamlit performs on every interaction. *)
Definition run_script (s : SessionState) (load_clicked : bool)
  (start_date end_date : date) (debug_checkbox : bool)
  (selected_partners selected_brands : list string)
  : script (SessionState * option QuickInsights) :=
  s1 <- (if load_clicked then load_data_clicked s start_date end_date
         else ret s) ;;
  render_dashboard s1 debug_checkbox selected_partners selected_brands.

End Dashboard.

(** ** Outcomes of a fetch *)

Definition required_cols : list string :=
  timestamp_cols ++ numeric_cols ++ string_cols.

Definition has_column (raw : RawFrame) (c : string) : bool :=
  existsb (String.eqb c) (columns raw).

Definition has_required_columns (raw : RawFrame) : Prop :=
  forallb (has_column raw) required_cols = true.

(** The fetch for a date range succeeds with [response], parsed as [raw]. *)
Definition fetch_success (env : Env) (start_date end_date : date)
  (response : Response) (raw : RawFrame) : Prop :=
  requests_post env (fetch_request env start_date end_date) = Ok response /\
  response_ok response = true /\
  read_csv env (text response) = Ok raw /\
  has_required_columns raw.

(** The ways the fetch for a date range fails: the transport raises, the
    status is one that [raise_for_status] refuses (400..599, for which
    [Response.ok] is false), the body is refused by the parser, or the
    parsed table lacks one of the columns the query asks for. *)
Inductive fetch_failure (env : Env) (start_date end_date : date) : Prop :=
| TransportFailure (e : exn) :
    requests_post env (fetch_request env start_date end_date) = Raise e ->
    fetch_failure env start_date end_date
| ErrorStatus (response : Response) :
    requests_post env (fetch_request env start_date end_date) = Ok response ->
    response_ok response = false ->
    fetch_failure env start_date end_date
| MalformedBody (response : Response) (e : exn) :
    requests_post env (fetch_request env start_date end_date) = Ok response ->
    read_csv env (text response) = Raise e ->
    fetch_failure env start_date end_date
| MissingColumn (response : Response) (raw : RawFrame) (c : string) :
    requests_post env (fetch_request env start_date end_date) = Ok response ->
    read_csv env (text response) = Ok raw ->
    In c required_cols ->
    ~ In c (columns raw) ->
    fetch_failure env start_date end_date.

(** What debug mode puts on the page for a response. *)
Definition debug_events (s : SessionState) (response : Response)
  : list ui_event :=
  if get_debug_mode s then
    [Written "Response Status Code:" (ShownInt (status_code response));
     Written "Response Headers:" (ShownDict (headers response));
     Written "Response Preview:"
       (ShownText (substring 0 500 (text response)))]
  else [].

Definition is_written (e : ui_event) : bool :=
  match e with
  | Written _ _ => true
  | _ => false
  end.

(** ** Export and re-import of the aggregate

    [app_metrics.to_csv(index=False)] and [pd.read_csv] on its text, with
    the defaults of both: comma, minimal quoting, a missing value written
    as the empty field, a line feed after every line; on reading, the
    default missing-value texts and the type of each column inferred from
    its cells. *)


Definition line_feed : ascii := "010"%char.


Definition newline : string := String line_feed EmptyString.











(** A cell of a table read back. *)
Inductive cell : Type :=
| Text (s : string)
| Number (v : number)
| Boolean (b : bool)
| Missing.





















(** ** Example environments *)

Definition usage_header : string :=
  "partner,token,package,last_time_used,last_time_foreground_service_used,first_time_stamp,last_time_stamp,last_time_visible,total_time_foreground_service_used,total_time_in_foreground,total_time_visible,hardware_id,model,os,product,brand".

(** A server that answers every request with the given status and body. *)
Definition respond (status : Z) (why body : string) (r : Request)
  : result Response :=
  Ok {| status_code := status;
        reason := why;
        url := req_url r;
        headers := [("Content-Type", "text/csv")];
        text := body |}.

(** A server that cannot be reached. *)
Definition unreachable (r : Request) : result Response :=
  Raise (RequestException "Connection refused").

(** No environment variable set, a local endpoint in [config.py], the
    example readers. *)
Definition example_env (post : Request -> result Response) : Env :=
  {| getenv := fun _ => None;
     CLICKHOUSE_CONFIG :=
       fun key => if String.eqb key "url" then "http://localhost:8123"
                  else "default";
     requests_post := post;
     read_csv := read_csv_unquoted;
     to_datetime := to_datetime_nothing;
     to_numeric := to_numeric_integer |}.

Definition example_date : date := {| year := 2024; month := 5; day := 17 |}.

(** A response with the header line and no data row. *)
Definition header_only_body : string := usage_header ++ newline.

(** Two rows of one package, both without a hardware_id. *)
Definition missing_ids_body : string :=
  usage_header ++ newline
  ++ "acme,tok,com.app,,,,,,0,3600,0,,m1,14,px,brandx" ++ newline
  ++ "acme,tok,com.app,,,,,,0,7200,0,,m1,14,px,brandx" ++ newline.


(** Three rows of one package; the duration of the second is not a
    number. *)
Definition malformed_duration_body : string :=
  usage_header ++ newline
  ++ "acme,tok,com.app,,,,,,0,3600,0,d1,m1,14,px,brandx" ++ newline
  ++ "acme,tok,com.app,,,,,,0,oops,0,d2,m1,14,px,brandx" ++ newline
  ++ "acme,tok,com.app,,,,,,0,7200,0,d1,m1,14,px,brandx" ++ newline.

(** The parsed form of a body under the example reader (an empty table
    when the reader refuses it). *)
Definition parsed_example (body : string) : RawFrame :=
  match read_csv_unquoted body with
  | Ok raw => raw
  | Raise _ => {| columns := []; rows := [] |}
  end.

(** The AppMetric row [calculate_app_metrics] derives for one group key. *)
Definition metric_of (table : DataFrame) (key : string) : AppMetric :=
  round_metric 2
    (seconds_to_hours (add_avg_time_per_device (agg_group table key))).

(** The device ids seen in the rows of one package. *)
Definition device_ids (table : DataFrame) (p : string) : list string :=
  nodup string_dec (dropna (map hardware_id (group table p))).

(** A row with the given partner, brand, package, device id and
    foreground seconds, and no timestamp. *)
Definition usage_row_of (pa br p : string) (d : option string)
  (seconds : number) : UsageRecord :=
  {| partner := Some pa;
     token := Some "tok";
     package := Some p;
     last_time_used := None;
     last_time_foreground_service_used := None;
     first_time_stamp := None;
     last_time_stamp := None;
     last_time_visible := None;
     total_time_foreground_service_used := Int64 0;
     total_time_in_foreground := seconds;
     total_time_visible := Int64 0;
     hardware_id := d;
     model := Some "m1";
     os := Some "14";
     product := Some "px";
     brand := Some br |}.

Definition usage_row (p d : string) (seconds : number) : UsageRecord :=
  usage_row_of "acme" "brandx" p (Some d) seconds.

(** The same row, last used at the given time. *)
Definition used_at (ts : Z) (r : UsageRecord) : UsageRecord :=
  {| partner := partner r;
     token := token r;
     package := package r;
     last_time_used := Some ts;
     last_time_foreground_service_used :=
       last_time_foreground_service_used r;
     first_time_stamp := first_time_stamp r;
     last_time_stamp := last_time_stamp r;
     last_time_visible := last_time_visible r;
     total_time_foreground_service_used :=
       total_time_foreground_service_used r;
     total_time_in_foreground := total_time_in_foreground r;
     total_time_visible := total_time_visible r;
     hardware_id := hardware_id r;
     model := model r;
     os := os r;
     product := product r;
     brand := brand r |}.

(** The table of the specification's worked example: package A used on
    devices d1 and d2 for 3600 and 7200 seconds. *)
Definition two_device_table : DataFrame :=
  [usage_row "A" "d1" (Int64 3600); usage_row "A" "d2" (Int64 7200)].



(** A table with two partners and two brands. *)
Definition mixed_table : DataFrame :=
  [usage_row_of "acme" "brandx" "A" (Some "d1") (Int64 3600);
   usage_row_of "zeta" "brandx" "A" (Some "d2") (Int64 7200);
   usage_row_of "zeta" "brandy" "B" (Some "d2") (Int64 60)].

(** The same table, every row last used 50 ns after the epoch. *)
Definition timed_table : DataFrame := map (used_at 50) mixed_table.

(** One row of a package, without a device id. *)
Definition no_device_table : DataFrame :=
  [usage_row_of "acme" "brandx" "A" None (Int64 3600)].

(** A table of one row, last used 50 ns after the epoch. *)
Definition early_table : DataFrame :=
  [used_at 50 (usage_row "A" "d1" (Int64 60))].











(** ** The figures as the specification words them *)









(** The value a row holds in one of the three duration columns. *)
Definition duration_column (c : string) (r : UsageRecord) : number :=
  if String.eqb c "total_time_foreground_service_used" then
    total_time_foreground_service_used r
  else if String.eqb c "total_time_in_foreground" then
    total_time_in_foreground r
  else if String.eqb c "total_time_visible" then total_time_visible r
  else NaN.

(** What the specification asks when the duration cell of [row] is not a
    number: the fetched table keeps the row, with the duration missing;
    the sum and the mean of its package are those of the other rows; and
    its device id, when present, is among the ids counted by reach. *)
Definition malformed_duration_spec (env : Env) (s : SessionState)
  (start_date end_date : date) (raw : RawFrame)
  (before : list (list (option string))) (row : list (option string))
  (after : list (list (option string))) (p : string) : Prop :=
  let conv := convert_row env raw in
  let table := map conv before ++ conv row :: map conv after in
  let others := map conv before ++ map conv after in
  outcome (fetch_data env s start_date end_date) = Ok (Some table) /\
  total_time_in_foreground (conv row) = NaN /\
  exists m,
    In m (calculate_app_metrics table) /\
    metric_package m = p /\
    total_time m =
      round_decimals 2
        (fdiv_int (nansum (foreground_seconds others p)) 3600) /\
    avg_time_per_session m =
      round_decimals 2
        (fdiv_int (nanmean (foreground_seconds others p)) 3600) /\
    exists ids : list string,
      NoDup ids /\
      reach m = List.length ids /\
      (forall h, In h ids <->
                 exists r, In r table /\ package r = Some p
                           /\ hardware_id r = Some h) /\
      (forall h, raw_cell (columns raw) row "hardware_id" = Some h ->
                 In h ids).
(** ** Properties of the helpers *)

Lemma insert_sorted_perm {A : Type} (le : A -> A -> bool) x l :
  Permutation (x :: l) (insert_sorted le x l).
Proof.
  induction l as [|y t IH]; simpl.
  - apply Permutation_refl.
  - destruct (le x y).
    + apply Permutation_refl.
    + eapply perm_trans; [apply perm_swap|].
      now apply perm_skip.
Qed.

Lemma isort_perm {A : Type} (le : A -> A -> bool) l :
  Permutation l (isort le l).
Proof.
  induction l as [|x t IH]; simpl.
  - constructor.
  - eapply perm_trans; [apply perm_skip, IH|].
    apply insert_sorted_perm.
Qed.

Lemma isort_In {A : Type} (le : A -> A -> bool) x l :
  In x (isort le l) <-> In x l.
Proof.
  split; intro H.
  - eapply Permutation_in; [apply Permutation_sym, isort_perm|exact H].
  - eapply Permutation_in; [apply isort_perm|exact H].
Qed.

Lemma isort_nil_iff {A : Type} (le : A -> A -> bool) l :
  isort le l = [] <-> l = [].
Proof.
  split; intro H.
  - apply Permutation_nil. rewrite <- H. apply Permutation_sym, isort_perm.
  - subst. reflexivity.
Qed.

Lemma dropna_In s l : In s (dropna l) <-> In (Some s) l.
Proof.
  unfold dropna. rewrite in_flat_map. split.
  - intros [[t|] [Hin Hs]]; simpl in Hs; [|contradiction].
    destruct Hs as [->|[]]. exact Hin.
  - intro Hin. exists (Some s). split; [exact Hin|now left].
Qed.

Lemma cell_eqb_true c s : cell_eqb c s = true <-> c = Some s.
Proof.
  destruct c as [t|]; simpl.
  - rewrite String.eqb_eq. split; congruence.
  - split; discriminate.
Qed.

Lemma group_In r table p :
  In r (group table p) <-> In r table /\ package r = Some p.
Proof.
  unfold group. rewrite filter_In, cell_eqb_true. reflexivity.
Qed.

Lemma groupby_keys_In k col : In k (groupby_keys col) <-> In (Some k) col.
Proof.
  unfold groupby_keys. rewrite isort_In, nodup_In. apply dropna_In.
Qed.

Lemma groupby_keys_NoDup col : NoDup (groupby_keys col).
Proof.
  unfold groupby_keys.
  eapply Permutation_NoDup; [apply isort_perm|apply NoDup_nodup].
Qed.

Lemma metric_of_package table k : metric_package (metric_of table k) = k.
Proof. reflexivity. Qed.

Lemma calculate_app_metrics_unfold table :
  calculate_app_metrics table =
  sort_by_reach_desc (map (metric_of table) (groupby_keys (map package table))).
Proof.
  unfold calculate_app_metrics, groupby_agg. rewrite !map_map. reflexivity.
Qed.

Lemma calculate_app_metrics_In m table :
  In m (calculate_app_metrics table) <->
  exists k, In (Some k) (map package table) /\ m = metric_of table k.
Proof.
  rewrite calculate_app_metrics_unfold. unfold sort_by_reach_desc.
  rewrite isort_In, in_map_iff. split.
  - intros [k [Hm Hk]]. exists k. rewrite <- groupby_keys_In. auto.
  - intros [k [Hk Hm]]. exists k. rewrite groupby_keys_In. auto.
Qed.

Lemma calculate_app_metrics_packages_NoDup table :
  NoDup (map metric_package (calculate_app_metrics table)).
Proof.
  rewrite calculate_app_metrics_unfold. unfold sort_by_reach_desc.
  eapply Permutation_NoDup.
  - apply Permutation_map, isort_perm.
  - rewrite map_map. erewrite map_ext; [|intro k; apply metric_of_package].
    rewrite map_id. apply groupby_keys_NoDup.
Qed.

Lemma device_ids_In h table p :
  In h (device_ids table p) <->
  exists r, In r table /\ package r = Some p /\ hardware_id r = Some h.
Proof.
  unfold device_ids. rewrite nodup_In, dropna_In, in_map_iff. split.
  - intros [r [Hh Hr]]. apply group_In in Hr. exists r. tauto.
  - intros [r [Hr [Hp Hh]]]. exists r. rewrite group_In. tauto.
Qed.

Lemma metric_of_reach table k :
  reach (metric_of table k) = List.length (device_ids table k).
Proof. reflexivity. Qed.

(** ** Properties of binary64 and int64 *)

Lemma norm_valid x : valid64 (norm x) = true.
Proof. unfold norm. destruct (valid64 x) eqn:H; [exact H|reflexivity]. Qed.

Lemma norm_of_valid x : valid64 x = true -> norm x = x.
Proof. unfold norm. intros ->. reflexivity. Qed.

Lemma norm_idem x : norm (norm x) = norm x.
Proof. apply norm_of_valid, norm_valid. Qed.

Lemma float_of_Z_valid z : valid64 (float_of_Z z) = true.
Proof. apply norm_valid. Qed.

Lemma fdiv_valid x y : valid64 (fdiv x y) = true.
Proof. apply norm_valid. Qed.

Lemma fmul_valid x y : valid64 (fmul x y) = true.
Proof. apply norm_valid. Qed.


Lemma to_float_valid v : valid64 (to_float v) = true.
Proof. destruct v; apply norm_valid. Qed.

Lemma norm_to_float v : norm (to_float v) = to_float v.
Proof. apply norm_of_valid, to_float_valid. Qed.

Lemma norm_fdiv x y : norm (fdiv x y) = fdiv x y.
Proof. apply norm_idem. Qed.

Lemma valid_finite s m e :
  valid64 (S754_finite s m e) = true ->
  fexp prec emax (Z.pos (digits2_pos m) + e) = e /\ e <= 971.
Proof.
  unfold valid64, valid_binary, bounded, canonical_mantissa.
  intro H. apply andb_true_iff in H. destruct H as [H1 H2].
  apply Z.eqb_eq in H1. apply Z.leb_le in H2.
  split; [exact H1|]. unfold emax, prec in H2. lia.
Qed.

Lemma fexp_eq k : fexp prec emax k = Z.max (k - 53) (-1074).
Proof. reflexivity. Qed.

Lemma div_eucl_exact a b : 0 < b -> Z.div_eucl (a * b) b = (a, 0).
Proof.
  intro Hb. pose proof (Z.div_eucl_eq (a * b) b ltac:(lia)) as Heq.
  pose proof (Z.mod_pos_bound (a * b) b Hb) as Hm.
  unfold Z.modulo in Hm.
  destruct (Z.div_eucl (a * b) b) as [q r]. simpl in *.
  assert (q = a) by nia. subst. f_equal. nia.
Qed.

(** Rounding a value that is a binary64 already changes nothing. *)
Lemma binary_round_aux_exact s m e :
  valid64 (S754_finite s m e) = true ->
  binary_round_aux prec emax s (Z.pos m) e loc_Exact = S754_finite s m e.
Proof.
  intro Hv. destruct (valid_finite s m e Hv) as [Hf He].
  unfold binary_round_aux, shr_fexp.
  change (Zdigits2 (Z.pos m)) with (Z.pos (digits2_pos m)).
  rewrite Hf, Z.sub_diag.
  cbn [shr shr_record_of_loc shr_m loc_of_shr_record round_nearest_even].
  change (Zdigits2 (Z.pos m)) with (Z.pos (digits2_pos m)).
  rewrite Hf, Z.sub_diag.
  cbn [shr shr_record_of_loc shr_m].
  replace (e <=? emax - prec) with true; [reflexivity|].
  symmetry. apply Z.leb_le. unfold emax, prec. lia.
Qed.

Lemma binary_round_aux_double s m e :
  valid64 (S754_finite s m e) = true ->
  Z.pos (digits2_pos m) = 53 -> -1073 <= e ->
  binary_round_aux prec emax s (Z.pos m~0) (e - 1) loc_Exact =
  S754_finite s m e.
Proof.
  intros Hv Hd Hlow. destruct (valid_finite s m e Hv) as [Hf He].
  unfold binary_round_aux, shr_fexp.
  change (Zdigits2 (Z.pos m~0)) with (Z.pos (Pos.succ (digits2_pos m))).
  rewrite Pos2Z.inj_succ, Hd.
  replace (fexp prec emax (Z.succ 53 + (e - 1)) - (e - 1)) with 1
    by (rewrite fexp_eq; lia).
  cbn [shr shr_record_of_loc shr_m shr_r shr_s loc_of_shr_record
       round_nearest_even iter_pos shr_1 orb].
  change (Zdigits2 (Z.pos m)) with (Z.pos (digits2_pos m)).
  replace (e - 1 + 1) with e by lia.
  rewrite Hf, Z.sub_diag.
  cbn [shr shr_record_of_loc shr_m].
  replace (e <=? emax - prec) with true; [reflexivity|].
  symmetry. apply Z.leb_le. unfold emax, prec. lia.
Qed.

(** Division by 1.0 is exact. *)
Lemma SFdiv_one_finite s m e :
  valid64 (S754_finite s m e) = true ->
  SFdiv prec emax (S754_finite s m e)
        (S754_finite false 4503599627370496 (-52)) =
  S754_finite s m e.
Proof.
  intro Hv. destruct (valid_finite s m e Hv) as [Hf He].
  rewrite fexp_eq in Hf.
  unfold SFdiv, SFdiv_core_binary.
  change (Zdigits2 (Z.pos m)) with (Z.pos (digits2_pos m)).
  change (Zdigits2 (Z.pos 4503599627370496)) with 53.
  rewrite fexp_eq, xorb_false_r.
  set (d := Z.pos (digits2_pos m)) in *.
  assert (0 < d) as Hdpos by (unfold d; lia).
  destruct (Z_lt_le_dec e (-1073)) as [Hlow|Hlow].
  - assert (e = -1074) as -> by lia.
    replace (Z.min (Z.max (d + -1074 - (53 + -52) - 53) (-1074)) (-1074 - -52))
      with (-1074) by lia.
    change (-1074 - -52 - -1074) with 52.
    cbv iota beta. rewrite Z.shiftl_mul_pow2 by lia.
    change (2 ^ 52) with 4503599627370496.
    rewrite div_eucl_exact by lia.
    change (new_location 4503599627370496 0) with loc_Exact.
    apply binary_round_aux_exact. exact Hv.
  - assert (d = 53) as Hd by lia.
    replace (Z.min (Z.max (d + e - (53 + -52) - 53) (-1074)) (e - -52))
      with (e - 1) by lia.
    replace (e - -52 - (e - 1)) with 53 by lia.
    cbv iota beta. rewrite Z.shiftl_mul_pow2 by lia.
    replace (Z.pos m * 2 ^ 53) with ((Z.pos m * 2) * 4503599627370496) by lia.
    rewrite div_eucl_exact by lia.
    change (new_location 4503599627370496 0) with loc_Exact.
    replace (Z.pos m * 2) with (Z.pos m~0) by lia.
    apply binary_round_aux_double; assumption.
Qed.

Lemma fdiv_one x : valid64 x = true -> fdiv x (float_of_Z 1) = x.
Proof.
  intro Hv. unfold fdiv. rewrite (norm_of_valid x Hv).
  change (norm (float_of_Z 1))
    with (S754_finite false 4503599627370496 (-52)).
  destruct x as [s|s| |s m e].
  - destruct s; reflexivity.
  - destruct s; reflexivity.
  - reflexivity.
  - rewrite (SFdiv_one_finite s m e Hv). apply norm_of_valid, Hv.
Qed.

Lemma fdiv_int_one x n : fdiv_int (fdiv_int x 1) n = fdiv_int x n.
Proof.
  unfold fdiv_int. cbn [to_float].
  rewrite (fdiv_one (to_float x) (to_float_valid x)), norm_to_float.
  reflexivity.
Qed.

(** Infinities and NaN *)

Lemma inf_or_nan_norm x : inf_or_nan x = true -> norm x = x.
Proof. destruct x as [s|s| |s m e]; try discriminate; reflexivity. Qed.

Lemma fdiv_inf_or_nan x y :
  inf_or_nan (norm x) = true -> inf_or_nan (fdiv x y) = true.
Proof.
  intro H. unfold fdiv.
  assert (inf_or_nan (SFdiv prec emax (norm x) (norm y)) = true) as Hd.
  { destruct (norm x) as [s|s| |s m e]; try discriminate;
      destruct (norm y); reflexivity. }
  rewrite (inf_or_nan_norm _ Hd). exact Hd.
Qed.

Lemma fmul_inf_or_nan x y :
  inf_or_nan (norm x) = true -> inf_or_nan (fmul x y) = true.
Proof.
  intro H. unfold fmul.
  assert (inf_or_nan (SFmul prec emax (norm x) (norm y)) = true) as Hd.
  { destruct (norm x) as [s|s| |s m e]; try discriminate;
      destruct (norm y); reflexivity. }
  rewrite (inf_or_nan_norm _ Hd). exact Hd.
Qed.

Lemma rint_inf_or_nan x :
  inf_or_nan (norm x) = true -> inf_or_nan (norm (rint x)) = true.
Proof.
  intro H. unfold rint.
  destruct (norm x) as [s|s| |s m e]; try discriminate; reflexivity.
Qed.

Lemma fdiv_zero x : inf_or_nan (fdiv x (float_of_Z 0)) = true.
Proof.
  unfold fdiv. change (norm (float_of_Z 0)) with (S754_zero false).
  destruct (norm x) as [s|s| |s m e]; reflexivity.
Qed.

Lemma is_inf_or_nan_div_zero x : is_inf_or_nan (fdiv_int x 0) = true.
Proof.
  unfold fdiv_int, is_inf_or_nan. rewrite norm_fdiv. apply fdiv_zero.
Qed.

Lemma is_inf_or_nan_div x n :
  is_inf_or_nan x = true -> is_inf_or_nan (fdiv_int x n) = true.
Proof.
  destruct x as [z|x]; [discriminate|]. unfold is_inf_or_nan, fdiv_int.
  intro H. rewrite norm_fdiv. apply fdiv_inf_or_nan.
  cbn [to_float]. rewrite norm_idem. exact H.
Qed.

Lemma is_inf_or_nan_round k x :
  is_inf_or_nan x = true -> is_inf_or_nan (round_decimals k x) = true.
Proof.
  destruct x as [z|x]; [discriminate|]. unfold is_inf_or_nan, round_decimals.
  intro H. destruct k as [|k].
  - apply rint_inf_or_nan, H.
  - rewrite norm_fdiv. apply fdiv_inf_or_nan, rint_inf_or_nan.
    rewrite (norm_of_valid _ (fmul_valid _ _)).
    apply fmul_inf_or_nan, H.
Qed.

(** The 64-bit sum *)

Lemma wrap64_range z : int64_range (wrap64 z).
Proof.
  unfold int64_range, wrap64.
  pose proof (Z.mod_pos_bound (z + 2 ^ 63) (2 ^ 64) ltac:(lia)). lia.
Qed.







(** Rounding to an integer *)



Lemma round_decimals_2 x :
  round_decimals 2 (Float64 x) =
  Float64 (fdiv (rint (fmul x (float_of_Z 100))) (float_of_Z 100)).
Proof. reflexivity. Qed.


(** Sums that skip missing values *)




Lemma present_skip_nan l1 l2 : present (l1 ++ NaN :: l2) = present (l1 ++ l2).
Proof. unfold present. rewrite !filter_app. reflexivity. Qed.

Lemma count_notna_skip_nan l1 l2 :
  count_notna (l1 ++ NaN :: l2) = count_notna (l1 ++ l2).
Proof. unfold count_notna. rewrite !filter_app. reflexivity. Qed.


Lemma nanmean_skip_nan l1 l2 : nanmean (l1 ++ NaN :: l2) = nanmean (l1 ++ l2).
Proof.
  unfold nanmean. rewrite present_skip_nan, count_notna_skip_nan. reflexivity.
Qed.

Lemma forallb_is_int64_false l :
  l <> [] -> (forall v, In v l -> is_int64 v = false) ->
  forallb is_int64 l = false.
Proof.
  destruct l as [|v t]; [congruence|]. intros _ H. simpl.
  rewrite (H v (or_introl eq_refl)). reflexivity.
Qed.

(** On a float column the sum is not changed by a missing value. *)
Lemma nansum_skip_nan l1 l2 :
  (forall v, In v (l1 ++ l2) -> is_int64 v = false) ->
  to_float (nansum (l1 ++ NaN :: l2)) = to_float (nansum (l1 ++ l2)).
Proof.
  intro Hfloat. unfold nansum.
  assert (forallb is_int64 (l1 ++ NaN :: l2) = false) as ->.
  { rewrite forallb_app. simpl. apply andb_false_r. }
  rewrite present_skip_nan.
  destruct (l1 ++ l2) as [|v t] eqn:Hl.
  - reflexivity.
  - rewrite (forallb_is_int64_false (v :: t)); [reflexivity|discriminate|].
    exact Hfloat.
Qed.

Lemma fdiv_int_to_float x y n :
  to_float x = to_float y -> fdiv_int x n = fdiv_int y n.
Proof. unfold fdiv_int. intros ->. reflexivity. Qed.


(** The cells of a column all have its type. *)

Lemma as_column_float col v : is_int64 v = false -> as_column col v = v.
Proof.
  destruct v as [z|x]; [discriminate|]. intros _. unfold as_column.
  destruct (forallb is_int64 col); reflexivity.
Qed.

Lemma as_column_NaN col : as_column col NaN = NaN.
Proof. apply as_column_float. reflexivity. Qed.

Lemma upcast_float v : is_int64 (upcast v) = false.
Proof. destruct v; reflexivity. Qed.


Lemma foreground_seconds_float table p :
  (forall r, In r table -> is_int64 (total_time_in_foreground r) = false) ->
  foreground_seconds table p =
  map total_time_in_foreground (group table p).
Proof.
  intro Hfloat. unfold foreground_seconds. rewrite map_map.
  apply map_ext_in. intros r Hr. apply as_column_float, Hfloat.
  apply filter_In in Hr. tauto.
Qed.

(** Order *)

Lemma float_leb_refl x : isna x = false -> float_leb x x = true.
Proof. intro H. unfold float_leb. rewrite H. apply Z.leb_refl. Qed.

Lemma float_desc_na_last_total x y :
  float_desc_na_last x y = true \/ float_desc_na_last y x = true.
Proof.
  unfold float_desc_na_last, float_leb.
  destruct (isna x), (isna y); simpl; auto.
  rewrite !Z.leb_le. lia.
Qed.

Lemma float_desc_na_last_trans x y z :
  float_desc_na_last x y = true ->
  float_desc_na_last y z = true ->
  float_desc_na_last x z = true.
Proof.
  unfold float_desc_na_last, float_leb.
  destruct (isna x), (isna y), (isna z); simpl;
    try reflexivity; try discriminate.
  rewrite !Z.leb_le. lia.
Qed.

Lemma float_desc_na_last_nan x y :
  float_desc_na_last x y = true -> isna x = true -> isna y = true.
Proof.
  unfold float_desc_na_last. intros H Hx. rewrite Hx in H.
  destruct (isna y); [reflexivity|discriminate].
Qed.

Lemma float_desc_na_last_leb x y :
  float_desc_na_last x y = true -> isna y = false -> float_leb y x = true.
Proof.
  unfold float_desc_na_last. intros H Hy. rewrite Hy in H.
  destruct (isna x); [discriminate|exact H].
Qed.

(** ** Aggregation *)

Lemma metric_of_total_time table p :
  total_time (metric_of table p) =
  round_decimals 2 (fdiv_int (nansum (foreground_seconds table p)) 3600).
Proof. reflexivity. Qed.

Lemma metric_of_avg_time_per_session table p :
  avg_time_per_session (metric_of table p) =
  round_decimals 2 (fdiv_int (nanmean (foreground_seconds table p)) 3600).
Proof. reflexivity. Qed.

Lemma metric_of_avg_time_per_device table p :
  avg_time_per_device (metric_of table p) =
  round_decimals 2
    (fdiv_int (fdiv_int (nansum (foreground_seconds table p))
                        (Z.of_nat (reach (metric_of table p))))
              3600).
Proof. reflexivity. Qed.







Lemma filter_df_In r sp sb table :
  In r (filter_df sp sb table) -> In r table.
Proof. unfold filter_df. rewrite filter_In. tauto. Qed.

Lemma device_ids_filter_incl sp sb table p :
  incl (device_ids (filter_df sp sb table) p) (device_ids table p).
Proof.
  intros h Hh. apply device_ids_In in Hh. destruct Hh as [r [Hr Hrest]].
  apply device_ids_In. exists r. split; [|exact Hrest].
  eapply filter_df_In; eauto.
Qed.

(** C6. For every table and every selection of partners and brands, each
    package in the aggregate of the filtered table is also in the aggregate
    of the whole table, with a reach at least as large. *)
Theorem filtered_reach_le_unfiltered :
  forall (table : DataFrame) (selected_partners selected_brands : list string)
         (m' : AppMetric),
    In m' (calculate_app_metrics
             (filter_df selected_partners selected_brands table)) ->
    exists m,
      In m (calculate_app_metrics table) /\
      metric_package m = metric_package m' /\
      (reach m' <= reach m)%nat.
Proof.
  intros table sp sb m' Hin.
  apply calculate_app_metrics_In in Hin. destruct Hin as [k [Hk ->]].
  exists (metric_of table k). split; [|split].
  - apply calculate_app_metrics_In. exists k. split; [|reflexivity].
    apply in_map_iff in Hk. destruct Hk as [r [Hp Hr]].
    apply in_map_iff. exists r. split; [exact Hp|].
    eapply filter_df_In; eauto.
  - reflexivity.
  - rewrite !metric_of_reach. apply NoDup_incl_length.
    + apply NoDup_nodup.
    + apply device_ids_filter_incl.
Qed.

Lemma filtered_reach_le_unfiltered_witness :
  exists m,
    In m (calculate_app_metrics mixed_table) /\
    metric_package m = "A" /\
    (1 <= reach m)%nat.
Proof.
  apply (filtered_reach_le_unfiltered mixed_table ["acme"] ["brandx"]
           (metric_of (filter_df ["acme"] ["brandx"] mixed_table) "A")).
  vm_compute. left. reflexivity.
Defined.
(** ** The script monad and [fetch_data] *)

Lemma bind_ok {A B : Type} (ev : list ui_event) (a : A) (f : A -> script B) :
  bind (ev, Ok a) f = (ev ++ events (f a), outcome (f a)).
Proof. unfold bind, events, outcome. destruct (f a). reflexivity. Qed.

Lemma bind_raise {A B : Type} (ev : list ui_event) (e : exn)
  (f : A -> script B) :
  bind (ev, Raise e) f = (ev, Raise e).
Proof. reflexivity. Qed.

Lemma bind_nil_ok {A B : Type} (a : A) (f : A -> script B) :
  bind ([], Ok a) f = f a.
Proof. unfold bind. destruct (f a). reflexivity. Qed.

Lemma bind_lift_ok {A B : Type} (a : A) (f : A -> script B) :
  bind (lift (Ok a)) f = f a.
Proof. apply bind_nil_ok. Qed.

Lemma raise_for_status_ok r :
  response_ok r = true -> raise_for_status r = ([], Ok tt).
Proof.
  unfold response_ok, raise_for_status. intro H.
  apply negb_true_iff in H.
  destruct (400 <=? status_code r) eqn:H1;
    destruct (status_code r <? 500) eqn:H2;
    destruct (500 <=? status_code r) eqn:H3;
    destruct (status_code r <? 600) eqn:H4;
    simpl in *; try reflexivity; try discriminate; lia.
Qed.

Lemma raise_for_status_error r :
  response_ok r = false ->
  exists msg, raise_for_status r = ([], Raise (HTTPError msg)).
Proof.
  unfold response_ok, raise_for_status. intro H.
  apply negb_false_iff in H.
  destruct (400 <=? status_code r) eqn:H1;
    destruct (status_code r <? 500) eqn:H2;
    destruct (500 <=? status_code r) eqn:H3;
    destruct (status_code r <? 600) eqn:H4;
    simpl in *; try discriminate; try (eexists; reflexivity); lia.
Qed.

Lemma require_columns_cases raw cols :
  (require_columns raw cols = ([], Ok tt) /\
   forall c, In c cols -> In c (columns raw)) \/
  (exists c, In c cols /\ ~ In c (columns raw) /\
             require_columns raw cols = ([], Raise (KeyError c))).
Proof.
  unfold require_columns.
  destruct (find _ cols) as [c|] eqn:Hfind.
  - right. exists c. apply find_some in Hfind. destruct Hfind as [Hin Hneg].
    split; [exact Hin|]. split; [|reflexivity].
    intro Hc. apply negb_true_iff in Hneg.
    assert (existsb (String.eqb c) (columns raw) = true) as Hex.
    { apply existsb_exists. exists c. split; [exact Hc|apply String.eqb_refl]. }
    congruence.
  - left. split; [reflexivity|]. intros c Hin.
    pose proof (find_none _ _ Hfind c Hin) as Hneg. simpl in Hneg.
    apply negb_false_iff, existsb_exists in Hneg.
    destruct Hneg as [x [Hx Heq]]. apply String.eqb_eq in Heq. now subst.
Qed.

Lemma debug_block s response :
  (if get_debug_mode s then
     st_write "Response Status Code:" (ShownInt (status_code response)) ;;;
     st_write "Response Headers:" (ShownDict (headers response)) ;;;
     st_write "Response Preview:"
       (ShownText (substring 0 500 (text response)))
   else ret tt) = (debug_events s response, Ok tt).
Proof. unfold debug_events. destruct (get_debug_mode s); reflexivity. Qed.

Lemma debug_events_written s response :
  forallb is_written (debug_events s response) = true.
Proof. unfold debug_events. destruct (get_debug_mode s); reflexivity. Qed.

(** The part of the try block that follows a response. *)
Lemma fetch_data_try_response env s a b response :
  requests_post env (fetch_request env a b) = Ok response ->
  fetch_data_try env s a b =
  ((debug_events s response, Ok tt) ;;;
   raise_for_status response ;;;
   raw <- lift (read_csv env (text response)) ;;
   require_columns raw timestamp_cols ;;;
   require_columns raw numeric_cols ;;;
   require_columns raw string_cols ;;;
   ret (Some (convert_frame env raw))).
Proof.
  intro H. unfold fetch_data_try. rewrite H. unfold lift at 1.
  rewrite bind_ok. rewrite debug_block. simpl.
  destruct (_ ;;; _). reflexivity.
Qed.

Lemma has_required_columns_In raw :
  has_required_columns raw ->
  forall c, In c required_cols -> In c (columns raw).
Proof.
  unfold has_required_columns, has_column. intros H c Hc.
  rewrite forallb_forall in H. specialize (H c Hc).
  apply existsb_exists in H. destruct H as [x [Hx Heq]].
  apply String.eqb_eq in Heq. now subst.
Qed.

Lemma fetch_data_success env s a b response raw :
  fetch_success env a b response raw ->
  fetch_data env s a b =
  (debug_events s response, Ok (Some (convert_frame env raw))).
Proof.
  intros (Hpost & Hok & Hcsv & Hcols).
  pose proof (has_required_columns_In raw Hcols) as Hin. clear Hcols.
  rename Hin into Hcols.
  unfold fetch_data. rewrite (fetch_data_try_response _ _ _ _ _ Hpost).
  rewrite (raise_for_status_ok _ Hok), Hcsv, bind_nil_ok, bind_lift_ok.
  destruct (require_columns_cases raw timestamp_cols) as [[-> _]|(c & Hc & Hn & _)];
    [|exfalso; apply Hn, Hcols; unfold required_cols; rewrite !in_app_iff; tauto].
  destruct (require_columns_cases raw numeric_cols) as [[-> _]|(c & Hc & Hn & _)];
    [|exfalso; apply Hn, Hcols; unfold required_cols; rewrite !in_app_iff; tauto].
  destruct (require_columns_cases raw string_cols) as [[-> _]|(c & Hc & Hn & _)];
    [|exfalso; apply Hn, Hcols; unfold required_cols; rewrite !in_app_iff; tauto].
  simpl. rewrite !app_nil_r. reflexivity.
Qed.

Lemma fetch_data_failure env s a b :
  fetch_failure env a b ->
  exists ev msg,
    fetch_data env s a b = (ev ++ [ErrorShown ("Error: " ++ msg)], Ok None) /\
    forallb is_written ev = true.
Proof.
  intros [e Hpost|response Hpost Hst|response e Hpost Hcsv
         |response raw c Hpost Hcsv Hc Hn].
  - exists [], (str_exn e). unfold fetch_data, fetch_data_try.
    rewrite Hpost. split; reflexivity.
  - destruct (raise_for_status_error _ Hst) as [msg Hr].
    exists (debug_events s response), msg.
    unfold fetch_data. rewrite (fetch_data_try_response _ _ _ _ _ Hpost), Hr.
    simpl. rewrite !app_nil_r. split; [reflexivity|apply debug_events_written].
  - unfold fetch_data. rewrite (fetch_data_try_response _ _ _ _ _ Hpost).
    destruct (response_ok response) eqn:Hst.
    + exists (debug_events s response), (str_exn e).
      rewrite (raise_for_status_ok _ Hst), Hcsv. simpl. rewrite ?app_nil_r.
      split; [reflexivity|apply debug_events_written].
    + destruct (raise_for_status_error _ Hst) as [msg Hr].
      exists (debug_events s response), msg. rewrite Hr.
      simpl. rewrite !app_nil_r. split; [reflexivity|apply debug_events_written].
  - unfold fetch_data. rewrite (fetch_data_try_response _ _ _ _ _ Hpost).
    destruct (response_ok response) eqn:Hst.
    + rewrite (raise_for_status_ok _ Hst), Hcsv, bind_nil_ok, bind_lift_ok.
      destruct (require_columns_cases raw timestamp_cols)
        as [[-> H1]|(c1 & _ & _ & ->)].
      2:{ exists (debug_events s response), (str_exn (KeyError c1)).
          simpl. rewrite !app_nil_r.
          split; [reflexivity|apply debug_events_written]. }
      destruct (require_columns_cases raw numeric_cols)
        as [[-> H2]|(c2 & _ & _ & ->)].
      2:{ exists (debug_events s response), (str_exn (KeyError c2)).
          simpl. rewrite !app_nil_r.
          split; [reflexivity|apply debug_events_written]. }
      destruct (require_columns_cases raw string_cols)
        as [[-> H3]|(c3 & _ & _ & ->)].
      2:{ exists (debug_events s response), (str_exn (KeyError c3)).
          simpl. rewrite !app_nil_r.
          split; [reflexivity|apply debug_events_written]. }
      exfalso. apply Hn. unfold required_cols in Hc.
      rewrite !in_app_iff in Hc. destruct Hc as [Hc|[Hc|Hc]]; auto.
    + destruct (raise_for_status_error _ Hst) as [msg Hr].
      exists (debug_events s response), msg. rewrite Hr.
      simpl. rewrite !app_nil_r. split; [reflexivity|apply debug_events_written].
Qed.

Lemma try_except_prefix {A : Type} (ev ev1 : list ui_event) (r : result A)
  (h : exn -> script A) :
  try_except (ev ++ ev1, r) h =
  (ev ++ events (try_except (ev1, r) h), outcome (try_except (ev1, r) h)).
Proof.
  destruct r as [a|e]; simpl.
  - reflexivity.
  - destruct (h e). simpl. rewrite app_assoc. reflexivity.
Qed.

(** Debug mode only puts its three lines in front of what the fetch shows
    anyway. *)
Lemma fetch_data_debug_prefix env s a b :
  fetch_data env s a b =
  (match requests_post env (fetch_request env a b) with
   | Ok response => debug_events s response
   | Raise _ => []
   end ++ events (fetch_data env initial_state a b),
   outcome (fetch_data env initial_state a b)).
Proof.
  destruct (requests_post env (fetch_request env a b)) as [response|e] eqn:Hpost.
  - unfold fetch_data.
    rewrite !(fetch_data_try_response _ _ _ _ _ Hpost).
    change (debug_events initial_state response) with (@nil ui_event).
    rewrite bind_nil_ok, bind_ok.
    destruct (bind (raise_for_status response) _) as [ev1 r].
    apply try_except_prefix.
  - unfold fetch_data, fetch_data_try. rewrite Hpost. reflexivity.
Qed.

(** ** Fetching *)

(** C4. When the transport fails, the status is an error status or the
    body is not a table with the expected columns, [fetch_data] shows an
    error message and returns None; it does not raise. *)
Theorem fetch_data_failure_returns_none :
  forall (env : Env) (s : SessionState) (start_date end_date : date),
    fetch_failure env start_date end_date ->
    exists ev msg,
      fetch_data env s start_date end_date = (ev, Ok None) /\
      In (ErrorShown ("Error: " ++ msg)) ev.
Proof.
  intros env s a b Hfail.
  destruct (fetch_data_failure env s a b Hfail) as (ev & msg & Heq & _).
  exists (ev ++ [ErrorShown ("Error: " ++ msg)]), msg.
  split; [exact Heq|]. apply in_or_app. right. now left.
Qed.

Lemma fetch_data_failure_returns_none_witness :
  exists ev msg,
    fetch_data (example_env (respond 503 "Service Unavailable" ""))
      initial_state example_date example_date = (ev, Ok None) /\
    In (ErrorShown ("Error: " ++ msg)) ev.
Proof.
  apply fetch_data_failure_returns_none.
  eapply ErrorStatus; reflexivity.
Defined.

(** C9. The table [fetch_data] returns does not depend on the debug flag
    of the session: two fetches in the same environment return the same
    value, and what they show differs in the [st.write] lines only. *)
Theorem debug_flag_does_not_alter_fetched_table :
  forall (env : Env) (s1 s2 : SessionState) (start_date end_date : date),
    outcome (fetch_data env s1 start_date end_date) =
    outcome (fetch_data env s2 start_date end_date) /\
    filter (fun e => negb (is_written e))
           (events (fetch_data env s1 start_date end_date)) =
    filter (fun e => negb (is_written e))
           (events (fetch_data env s2 start_date end_date)).
Proof.
  intros env s1 s2 a b.
  rewrite (fetch_data_debug_prefix env s1), (fetch_data_debug_prefix env s2).
  split; [reflexivity|]. unfold events at 1 3. simpl fst.
  rewrite !filter_app. f_equal.
  destruct (requests_post env (fetch_request env a b)) as [response|e];
    [|reflexivity].
  unfold debug_events.
  destruct (get_debug_mode s1), (get_debug_mode s2); reflexivity.
Qed.

(** ** Loading *)

Lemma load_data_clicked_none env s a b ev :
  fetch_data env s a b = (ev, Ok None) ->
  load_data_clicked env s a b =
  (ev ++ [ErrorShown "Failed to load data"],
   Ok {| data_loaded := false; df := df s; debug_mode := debug_mode s |}).
Proof. intro H. unfold load_data_clicked. rewrite H. reflexivity. Qed.

Lemma load_data_clicked_empty env s a b ev :
  fetch_data env s a b = (ev, Ok (Some [])) ->
  load_data_clicked env s a b =
  (ev ++ [ErrorShown "Failed to load data"],
   Ok {| data_loaded := false; df := df s; debug_mode := debug_mode s |}).
Proof. intro H. unfold load_data_clicked. rewrite H. reflexivity. Qed.

(** C3. When a fetch fails while the session holds a table, the Load Data
    handler ends normally, shows the error, and the session still holds the
    same table. *)
Theorem failed_fetch_keeps_table :
  forall (env : Env) (s : SessionState) (table : DataFrame)
         (start_date end_date : date),
    df s = Some table ->
    fetch_failure env start_date end_date ->
    exists ev msg s',
      load_data_clicked env s start_date end_date = (ev, Ok s') /\
      df s' = Some table /\
      debug_mode s' = debug_mode s /\
      In (ErrorShown ("Error: " ++ msg)) ev /\
      In (ErrorShown "Failed to load data") ev.
Proof.
  intros env s table a b Hdf Hfail.
  destruct (fetch_data_failure env s a b Hfail) as (ev & msg & Heq & _).
  exists ((ev ++ [ErrorShown ("Error: " ++ msg)])
          ++ [ErrorShown "Failed to load data"]), msg.
  eexists. split; [apply load_data_clicked_none; exact Heq|].
  simpl. rewrite !in_app_iff. simpl. tauto.
Qed.

Lemma failed_fetch_keeps_table_witness :
  exists ev msg s',
    load_data_clicked (example_env unreachable)
      {| data_loaded := true;
         df := Some two_device_table;
         debug_mode := Some true |}
      example_date example_date = (ev, Ok s') /\
    df s' = Some two_device_table /\
    debug_mode s' = Some true /\
    In (ErrorShown ("Error: " ++ msg)) ev /\
    In (ErrorShown "Failed to load data") ev.
Proof.
  apply (failed_fetch_keeps_table (example_env unreachable)
           {| data_loaded := true;
              df := Some two_device_table;
              debug_mode := Some true |}
           two_device_table example_date example_date).
  - reflexivity.
  - eapply TransportFailure. reflexivity.
Defined.

(** C10. A fetch that succeeds with a table of zero rows is handled by the
    Load Data handler on the branch of a failed fetch: it shows "Failed to
    load data", clears the loaded flag, so that the dashboard is not
    rendered, and keeps the held table.  The page differs from that of a
    failed fetch in one respect: the line "Error: ..." that [fetch_data]
    shows for a failure is absent. *)
Theorem empty_result_handled_as_failure :
  forall (env env' : Env) (s : SessionState) (start_date end_date : date)
         (response : Response) (raw : RawFrame),
    fetch_success env start_date end_date response raw ->
    rows raw = [] ->
    fetch_failure env' start_date end_date ->
    let quiet :=
      {| data_loaded := false; df := df s; debug_mode := debug_mode s |} in
    load_data_clicked env s start_date end_date =
      (debug_events s response ++ [ErrorShown "Failed to load data"],
       Ok quiet) /\
    (exists ev msg,
        load_data_clicked env' s start_date end_date =
          (ev ++ [ErrorShown ("Error: " ++ msg);
                  ErrorShown "Failed to load data"],
           Ok quiet) /\
        forallb is_written ev = true) /\
    (forall debug_checkbox selected_partners selected_brands,
        render_dashboard quiet debug_checkbox selected_partners
          selected_brands = ([], Ok (quiet, None))).
Proof.
  intros env env' s a b response raw Hok Hrows Hfail quiet.
  split; [|split].
  - apply load_data_clicked_empty.
    rewrite (fetch_data_success env s a b response raw Hok).
    unfold convert_frame. rewrite Hrows. reflexivity.
  - destruct (fetch_data_failure env' s a b Hfail) as (ev & msg & Heq & Hw).
    exists ev, msg. split; [|exact Hw].
    rewrite (load_data_clicked_none _ _ _ _ _ Heq).
    rewrite <- app_assoc. reflexivity.
  - reflexivity.
Qed.

Lemma empty_result_handled_as_failure_witness :
  let env := example_env (respond 200 "OK" header_only_body) in
  let env' := example_env unreachable in
  let quiet := {| data_loaded := false; df := None; debug_mode := None |} in
  load_data_clicked env initial_state example_date example_date =
    ([ErrorShown "Failed to load data"], Ok quiet) /\
  (exists ev msg,
      load_data_clicked env' initial_state example_date example_date =
        (ev ++ [ErrorShown ("Error: " ++ msg);
                ErrorShown "Failed to load data"],
         Ok quiet) /\
      forallb is_written ev = true) /\
  (forall debug_checkbox selected_partners selected_brands,
      render_dashboard quiet debug_checkbox selected_partners
        selected_brands = ([], Ok (quiet, None))).
Proof.
  intros env env' quiet.
  eapply (empty_result_handled_as_failure env env' initial_state
            example_date example_date).
  - split; [reflexivity|]. split; [reflexivity|]. split; reflexivity.
  - reflexivity.
  - eapply TransportFailure. reflexivity.
Defined.

(** The events of an empty result and of a failed fetch differ. *)
Lemma empty_result_distinguishable_from_error :
  events (load_data_clicked (example_env (respond 200 "OK" header_only_body))
            initial_state example_date example_date) <>
  events (load_data_clicked (example_env unreachable)
            initial_state example_date example_date).
Proof. vm_compute. discriminate. Qed.

(** ** The dashboard *)

Lemma filter_df_no_partner selected_brands table :
  filter_df [] selected_brands table = [].
Proof.
  unfold filter_df. induction table as [|r t IH]; simpl; [reflexivity|].
  destruct (partner r); simpl; exact IH.
Qed.

(** C8 fails on the code.  Once a table is loaded, a selection of partners
    and brands that leaves no row makes the hourly usage series empty, and
    [px.line] (line 382) refuses its empty x and y with ValueError;
    nothing in the script catches it, and the run stops there, before the
    Quick Insights panel is reached. *)
Theorem empty_selection_raises_value_error :
  forall (table : DataFrame) (dbg : option bool) (debug_checkbox : bool)
         (selected_partners selected_brands : list string),
    filter_df selected_partners selected_brands table = [] ->
    outcome (render_dashboard
               {| data_loaded := true; df := Some table; debug_mode := dbg |}
               debug_checkbox selected_partners selected_brands) =
    Raise (ValueError
             "Cannot accept list of column references or list of columns for both `x` and `y`.").
Proof.
  intros table dbg debug_checkbox sp sb Hnone.
  unfold render_dashboard. cbn [data_loaded df]. rewrite Hnone. reflexivity.
Qed.

Lemma empty_selection_raises_value_error_witness :
  outcome (render_dashboard
             {| data_loaded := true;
                df := Some timed_table;
                debug_mode := Some false |}
             false [] ["brandx"; "brandy"]) =
  Raise (ValueError
           "Cannot accept list of column references or list of columns for both `x` and `y`.").
Proof.
  apply (empty_selection_raises_value_error timed_table (Some false) false
           [] ["brandx"; "brandy"]).
  apply filter_df_no_partner.
Defined.

(** ** Malformed durations *)

Lemma group_app t1 t2 p : group (t1 ++ t2) p = group t1 p ++ group t2 p.
Proof. unfold group. apply filter_app. Qed.

Lemma group_middle t1 r t2 p :
  package r = Some p ->
  group (t1 ++ r :: t2) p = group t1 p ++ r :: group t2 p.
Proof.
  intro Hp. rewrite group_app. f_equal. unfold group at 1. simpl.
  apply cell_eqb_true in Hp. rewrite Hp. reflexivity.
Qed.

Lemma duration_column_convert env raw row c :
  In c numeric_cols ->
  duration_column c (convert_row env raw row) =
  to_numeric_column (to_numeric env) (raw_column raw c)
                    (raw_cell (columns raw) row c).
Proof.
  intro Hc. simpl in Hc.
  destruct Hc as [<-|[<-|[<-|[]]]]; reflexivity.
Qed.

(** A cell that is not a number is marked missing. *)
Lemma to_numeric_column_malformed parse col cell :
  parse cell = None -> to_numeric_column parse col (Some cell) = NaN.
Proof.
  intro H. unfold to_numeric_column. cbn [to_numeric_coerce]. rewrite H.
  apply as_column_NaN.
Qed.

(** One cell that is not a number makes the whole column float64. *)
Lemma to_numeric_column_float parse col cell c :
  In (Some cell) col -> parse cell = None ->
  is_int64 (to_numeric_column parse col c) = false.
Proof.
  intros Hin Hcell. unfold to_numeric_column, as_column.
  assert (forallb is_int64 (map (to_numeric_coerce parse) col) = false) as ->.
  { destruct (forallb is_int64 (map (to_numeric_coerce parse) col)) eqn:Hall;
      [|reflexivity].
    rewrite forallb_forall in Hall.
    specialize (Hall (to_numeric_coerce parse (Some cell))
                     (in_map _ _ _ Hin)).
    cbn [to_numeric_coerce] in Hall. rewrite Hcell in Hall. discriminate. }
  apply upcast_float.
Qed.

Lemma raw_column_In raw row c :
  In row (rows raw) -> In (raw_cell (columns raw) row c) (raw_column raw c).
Proof.
  intro H. unfold raw_column.
  apply (in_map (fun row => raw_cell (columns raw) row c)). exact H.
Qed.

(** C5. When a cell of a duration column in the response is not a number,
    [fetch_data] keeps the row and marks that duration missing.  When the
    column is total_time_in_foreground, [calculate_app_metrics] computes
    the sum and the mean of the row's package from the other rows, and
    counts the row's hardware_id in the reach of the package when the id is
    present. *)
Theorem malformed_duration_row_is_kept :
  (forall (env : Env) (s : SessionState) (start_date end_date : date)
          (response : Response) (raw : RawFrame)
          (before : list (list (option string))) (row : list (option string))
          (after : list (list (option string))) (col cell : string),
      fetch_success env start_date end_date response raw ->
      rows raw = before ++ row :: after ->
      In col numeric_cols ->
      raw_cell (columns raw) row col = Some cell ->
      to_numeric env cell = None ->
      let conv := convert_row env raw in
      outcome (fetch_data env s start_date end_date) =
        Ok (Some (map conv before ++ conv row :: map conv after)) /\
      duration_column col (conv row) = NaN) /\
  (forall (env : Env) (s : SessionState) (start_date end_date : date)
          (response : Response) (raw : RawFrame)
          (before : list (list (option string))) (row : list (option string))
          (after : list (list (option string))) (cell p : string),
      fetch_success env start_date end_date response raw ->
      rows raw = before ++ row :: after ->
      raw_cell (columns raw) row "total_time_in_foreground" = Some cell ->
      to_numeric env cell = None ->
      package (convert_row env raw row) = Some p ->
      malformed_duration_spec env s start_date end_date raw before row after
        p).
Proof.
  assert (forall env s a b response raw before row after,
             fetch_success env a b response raw ->
             rows raw = before ++ row :: after ->
             outcome (fetch_data env s a b) =
             Ok (Some (map (convert_row env raw) before
                       ++ convert_row env raw row
                       :: map (convert_row env raw) after)))
    as Hkept.
  { intros env s a b response raw before row after Hok Hrows.
    rewrite (fetch_data_success env s a b response raw Hok). simpl.
    unfold convert_frame. rewrite Hrows, map_app. reflexivity. }
  split.
  - intros env s a b response raw before row after col cell
           Hok Hrows Hcol Hcell Hnum conv.
    split; [apply (Hkept env s a b response raw before row after Hok Hrows)|].
    unfold conv. rewrite (duration_column_convert _ _ _ _ Hcol), Hcell.
    apply to_numeric_column_malformed, Hnum.
  - intros env s a b response raw before row after cell p
           Hok Hrows Hcell Hnum Hp.
    unfold malformed_duration_spec.
    set (conv := convert_row env raw) in *.
    assert (In row (rows raw)) as Hrow.
    { rewrite Hrows. apply in_or_app. right. now left. }
    assert (forall row', is_int64 (total_time_in_foreground (conv row'))
                         = false) as Hfloat.
    { intro row'. unfold conv, convert_row. cbn [total_time_in_foreground].
      apply (to_numeric_column_float _ _ cell); [|exact Hnum].
      rewrite <- Hcell. apply raw_column_In, Hrow. }
    assert (total_time_in_foreground (conv row) = NaN) as Hnan.
    { unfold conv, convert_row. cbn [total_time_in_foreground].
      rewrite Hcell. apply to_numeric_column_malformed, Hnum. }
    split; [|split; [exact Hnan|]].
    + apply (Hkept env s a b response raw before row after Hok Hrows).
    + set (table := map conv before ++ conv row :: map conv after).
      set (others := map conv before ++ map conv after).
      assert (forall rows r, In r (map conv rows) ->
                is_int64 (total_time_in_foreground r) = false) as Hconv.
      { intros rows r Hr. apply in_map_iff in Hr.
        destruct Hr as [row' [<- _]]. apply Hfloat. }
      assert (forall r, In r table ->
                is_int64 (total_time_in_foreground r) = false) as Htable.
      { intros r Hr. unfold table in Hr. apply in_app_or in Hr.
        destruct Hr as [Hr|[<-|Hr]]; [eapply Hconv; eauto|apply Hfloat|
                                       eapply Hconv; eauto]. }
      assert (forall r, In r others ->
                is_int64 (total_time_in_foreground r) = false) as Hothers.
      { intros r Hr. unfold others in Hr. apply in_app_or in Hr.
        destruct Hr as [Hr|Hr]; eapply Hconv; eauto. }
      set (l1 := map total_time_in_foreground (group (map conv before) p)).
      set (l2 := map total_time_in_foreground (group (map conv after) p)).
      assert (foreground_seconds table p = l1 ++ NaN :: l2) as Hsec.
      { rewrite (foreground_seconds_float table p Htable). unfold table.
        rewrite (group_middle _ _ _ _ Hp), map_app. cbn [map].
        rewrite Hnan. reflexivity. }
      assert (foreground_seconds others p = l1 ++ l2) as Hrest.
      { rewrite (foreground_seconds_float others p Hothers). unfold others.
        rewrite group_app, map_app. reflexivity. }
      assert (forall v, In v (l1 ++ l2) -> is_int64 v = false) as Hl.
      { intros v Hv. rewrite <- Hrest in Hv.
        rewrite (foreground_seconds_float others p Hothers) in Hv.
        apply in_map_iff in Hv. destruct Hv as [r [<- Hr]].
        apply Hothers. apply filter_In in Hr. tauto. }
      exists (metric_of table p).
      split; [|split; [reflexivity|split; [|split]]].
      * apply calculate_app_metrics_In. exists p. split; [|reflexivity].
        unfold table. rewrite map_app, in_app_iff. right. left. exact Hp.
      * rewrite metric_of_total_time, Hsec, Hrest. f_equal.
        apply fdiv_int_to_float, nansum_skip_nan, Hl.
      * rewrite metric_of_avg_time_per_session, Hsec, Hrest.
        rewrite nanmean_skip_nan. reflexivity.
      * exists (device_ids table p).
        split; [apply NoDup_nodup|]. split; [apply metric_of_reach|].
        split; [intro h; apply device_ids_In|].
        intros h Hh. apply device_ids_In. exists (conv row).
        split; [|split; [exact Hp|]].
        -- unfold table. rewrite in_app_iff. right. now left.
        -- unfold conv, convert_row. cbn [hardware_id]. rewrite Hh.
           reflexivity.
Qed.

Lemma malformed_duration_row_is_kept_witness :
  let raw := parsed_example malformed_duration_body in
  malformed_duration_spec
    (example_env (respond 200 "OK" malformed_duration_body))
    initial_state example_date example_date raw
    (firstn 1 (rows raw)) (nth 1 (rows raw) []) (skipn 2 (rows raw))
    "com.app".
Proof.
  intro raw.
  eapply (proj2 malformed_duration_row_is_kept
            (example_env (respond 200 "OK" malformed_duration_body))
            initial_state example_date example_date _ raw
            (firstn 1 (rows raw)) (nth 1 (rows raw) []) (skipn 2 (rows raw))
            "oops" "com.app").
  - split; [reflexivity|]. split; [reflexivity|]. split; reflexivity.
  - reflexivity.
  - reflexivity.
  - reflexivity.
  - reflexivity.
Defined.

(** ** Missing device ids *)

Lemma nodup_all_same (a : string) (l : list string) :
  l <> [] -> (forall x, In x l -> x = a) -> nodup string_dec l = [a].
Proof.
  induction l as [|x t IH]; intros Hne Hall; [congruence|].
  assert (x = a) as -> by (apply Hall; now left).
  simpl. destruct (in_dec string_dec a t) as [Hin|Hnin].
  - apply IH.
    + intro Ht. subst t. contradiction.
    + intros y Hy. apply Hall. now right.
  - destruct t as [|y t'].
    + reflexivity.
    + exfalso. apply Hnin. left. apply Hall. right. now left.
Qed.

Lemma convert_row_hardware_id env raw row :
  hardware_id (convert_row env raw row) =
  astype_str (raw_cell (columns raw) row "hardware_id").
Proof. reflexivity. Qed.

(** In a fetched table every row has a device id, the text "nan" standing
    for a missing one. *)
Lemma fetched_rows_have_ids env raw r :
  In r (convert_frame env raw) -> exists h, hardware_id r = Some h.
Proof.
  unfold convert_frame. rewrite in_map_iff. intros [row [<- _]].
  rewrite convert_row_hardware_id.
  destruct (raw_cell (columns raw) row "hardware_id"); simpl; eauto.
Qed.

(** C2. For a package whose rows all have a missing hardware_id,
    [calculate_app_metrics] gives reach 0, and avg_time_per_device, the
    total time divided by that reach, is an infinity or NaN: the division
    by zero is not special-cased. *)
Theorem missing_hardware_id_gives_zero_reach :
  forall (table : DataFrame) (p : string) (m : AppMetric),
    (forall r, In r table -> package r = Some p -> hardware_id r = None) ->
    In m (calculate_app_metrics table) ->
    metric_package m = p ->
    reach m = 0%nat /\ is_inf_or_nan (avg_time_per_device m) = true.
Proof.
  intros table p m Hmissing Hin Hpkg.
  apply calculate_app_metrics_In in Hin. destruct Hin as [k [Hk ->]].
  rewrite metric_of_package in Hpkg. subst k.
  assert (device_ids table p = []) as Hids.
  { destruct (device_ids table p) as [|h t] eqn:Hd; [reflexivity|].
    assert (In h (device_ids table p)) as Hinh by (rewrite Hd; now left).
    apply device_ids_In in Hinh. destruct Hinh as [r [Hr [Hp Hh]]].
    rewrite (Hmissing r Hr Hp) in Hh. discriminate. }
  assert (reach (metric_of table p) = 0%nat) as Hreach.
  { rewrite metric_of_reach, Hids. reflexivity. }
  split; [exact Hreach|].
  rewrite metric_of_avg_time_per_device, Hreach.
  apply is_inf_or_nan_round, is_inf_or_nan_div, is_inf_or_nan_div_zero.
Qed.

Lemma missing_hardware_id_gives_zero_reach_witness :
  reach (metric_of no_device_table "A") = 0%nat /\
  is_inf_or_nan (avg_time_per_device (metric_of no_device_table "A")) = true.
Proof.
  apply (missing_hardware_id_gives_zero_reach no_device_table "A").
  - intros r [<-|[]] _. reflexivity.
  - vm_compute. left. reflexivity.
  - reflexivity.
Defined.

(** What [fetch_data] makes of a missing hardware_id.  [astype(str)] turns
    it into the text "nan", so a package whose rows all lack the id in the
    response gets reach 1 and avg_time_per_device = (sum / 1) / 3600,
    rounded; in a fetched table every package has reach at least 1 and no
    division by zero occurs. *)
Theorem fetched_missing_hardware_id_counts_as_one_device :
  (forall (env : Env) (s : SessionState) (start_date end_date : date)
          (response : Response) (raw : RawFrame) (p : string) (m : AppMetric),
      fetch_success env start_date end_date response raw ->
      (forall row, In row (rows raw) ->
                   package (convert_row env raw row) = Some p ->
                   raw_cell (columns raw) row "hardware_id" = None) ->
      In m (calculate_app_metrics (convert_frame env raw)) ->
      metric_package m = p ->
      outcome (fetch_data env s start_date end_date) =
        Ok (Some (convert_frame env raw)) /\
      device_ids (convert_frame env raw) p = ["nan"] /\
      reach m = 1%nat /\
      avg_time_per_device m =
        round_decimals 2
          (fdiv_int
             (fdiv_int (nansum (foreground_seconds (convert_frame env raw) p))
                       1)
             3600)) /\
  (forall (env : Env) (raw : RawFrame) (m : AppMetric),
      In m (calculate_app_metrics (convert_frame env raw)) ->
      (1 <= reach m)%nat).
Proof.
  split.
  - intros env s a b response raw p m Hok Hmissing Hin Hpkg.
    split; [rewrite (fetch_data_success env s a b response raw Hok);
            reflexivity|].
    apply calculate_app_metrics_In in Hin. destruct Hin as [k [Hk ->]].
    rewrite metric_of_package in Hpkg. subst k.
    set (table := convert_frame env raw) in *.
    assert (device_ids table p = ["nan"]) as Hids.
    { unfold device_ids. apply nodup_all_same.
      - apply in_map_iff in Hk. destruct Hk as [r [Hp Hr]].
        destruct (fetched_rows_have_ids env raw r Hr) as [h Hh].
        intro Hnil.
        assert (In h (dropna (map hardware_id (group table p)))) as Hinh.
        { apply dropna_In, in_map_iff. exists r. split; [exact Hh|].
          apply group_In. auto. }
        rewrite Hnil in Hinh. contradiction.
      - intros x Hx. apply dropna_In, in_map_iff in Hx.
        destruct Hx as [r [Hh Hr]]. apply group_In in Hr.
        destruct Hr as [Hr Hp]. unfold table, convert_frame in Hr.
        apply in_map_iff in Hr. destruct Hr as [row [<- Hrow]].
        rewrite convert_row_hardware_id, (Hmissing row Hrow Hp) in Hh.
        simpl in Hh. congruence. }
    assert (reach (metric_of table p) = 1%nat) as Hreach.
    { rewrite metric_of_reach, Hids. reflexivity. }
    split; [exact Hids|]. split; [exact Hreach|].
    rewrite metric_of_avg_time_per_device, Hreach. reflexivity.
  - intros env raw m Hin.
    apply calculate_app_metrics_In in Hin. destruct Hin as [k [Hk ->]].
    apply in_map_iff in Hk. destruct Hk as [r [Hp Hr]].
    destruct (fetched_rows_have_ids env raw r Hr) as [h Hh].
    rewrite metric_of_reach.
    assert (In h (device_ids (convert_frame env raw) k)) as Hinh.
    { apply device_ids_In. exists r. auto. }
    destruct (device_ids (convert_frame env raw) k); [contradiction|].
    simpl. lia.
Qed.

Lemma fetched_missing_hardware_id_counts_as_one_device_witness :
  let env := example_env (respond 200 "OK" missing_ids_body) in
  let raw := parsed_example missing_ids_body in
  let m := metric_of (convert_frame env raw) "com.app" in
  outcome (fetch_data env initial_state example_date example_date) =
    Ok (Some (convert_frame env raw)) /\
  device_ids (convert_frame env raw) "com.app" = ["nan"] /\
  reach m = 1%nat /\
  avg_time_per_device m =
    round_decimals 2
      (fdiv_int
         (fdiv_int
            (nansum (foreground_seconds (convert_frame env raw) "com.app")) 1)
         3600).
Proof.
  intros env raw m.
  eapply (proj1 fetched_missing_hardware_id_counts_as_one_device env
            initial_state example_date example_date _ raw "com.app" m).
  - split; [reflexivity|]. split; [reflexivity|]. split; reflexivity.
  - intros row Hrow _. vm_compute in Hrow.
    destruct Hrow as [<-|[<-|[]]]; reflexivity.
  - vm_compute. left. reflexivity.
  - reflexivity.
Defined.

(** A full scenario: the data of [malformed_duration_body] is loaded; on
    the next run the partner selection is empty and the script stops with
    ValueError. *)
Example cleared_partner_selection_run :
  let env := example_env (respond 200 "OK" malformed_duration_body) in
  let loaded :=
    {| data_loaded := true;
       df := Some (convert_frame env (parsed_example malformed_duration_body));
       debug_mode := None |} in
  load_data_clicked env initial_state example_date example_date =
    ([SuccessShown "Successfully loaded 3 records"], Ok loaded) /\
  outcome (run_script env loaded false example_date example_date
             false [] ["brandx"]) =
  Raise (ValueError
           "Cannot accept list of column references or list of columns for both `x` and `y`.").
Proof. split; vm_compute; reflexivity. Qed.
(** * Further properties of the script *)

(** ** Sorted output *)

Section SortFacts.

Context {A : Type} (le : A -> A -> bool).
Hypothesis le_total : forall a b, le a b = true \/ le b a = true.
Hypothesis le_trans :
  forall a b c, le a b = true -> le b c = true -> le a c = true.

Lemma insert_sorted_sorted x l :
  StronglySorted (fun a b => le a b = true) l ->
  StronglySorted (fun a b => le a b = true) (insert_sorted le x l).
Proof.
  induction l as [|y t IH]; intro Hs; simpl.
  - constructor; constructor.
  - inversion Hs as [|? ? Ht Hy]; subst.
    destruct (le x y) eqn:Hxy.
    + constructor; [exact Hs|]. constructor; [exact Hxy|].
      rewrite Forall_forall in *. intros z Hz. eauto.
    + constructor; [apply IH; exact Ht|].
      rewrite Forall_forall in *. intros z Hz.
      apply (Permutation_in _ (Permutation_sym (insert_sorted_perm le x t)))
        in Hz.
      destruct Hz as [<-|Hz]; [|auto].
      destruct (le_total x y) as [H|H]; [congruence|exact H].
Qed.

Lemma isort_sorted l : StronglySorted (fun a b => le a b = true) (isort le l).
Proof.
  induction l as [|x t IH]; simpl.
  - constructor.
  - apply insert_sorted_sorted, IH.
Qed.

End SortFacts.

Lemma StronglySorted_weaken {A : Type} (R S : A -> A -> Prop) l :
  (forall a b, R a b -> S a b) -> StronglySorted R l -> StronglySorted S l.
Proof.
  intros HRS Hs. induction Hs as [|a l Hl IH Ha]; constructor; auto.
  eapply Forall_impl; [|exact Ha]. intros b. apply HRS.
Qed.

Lemma StronglySorted_app_cross {A : Type} (R : A -> A -> Prop) l1 l2 :
  StronglySorted R (l1 ++ l2) ->
  forall a b, In a l1 -> In b l2 -> R a b.
Proof.
  induction l1 as [|x t IH]; simpl; intros Hs a b Ha Hb; [contradiction|].
  inversion Hs as [|? ? Ht Hx]; subst.
  destruct Ha as [<-|Ha].
  - rewrite Forall_forall in Hx. apply Hx, in_or_app. now right.
  - eapply IH; eauto.
Qed.

Lemma reach_desc_total (a b : AppMetric) :
  Nat.leb (reach b) (reach a) = true \/ Nat.leb (reach a) (reach b) = true.
Proof. rewrite !Nat.leb_le. lia. Qed.

Lemma reach_desc_trans (a b c : AppMetric) :
  Nat.leb (reach b) (reach a) = true ->
  Nat.leb (reach c) (reach b) = true ->
  Nat.leb (reach c) (reach a) = true.
Proof. rewrite !Nat.leb_le. lia. Qed.

Lemma sort_by_reach_desc_sorted l :
  StronglySorted (fun a b => (reach b <= reach a)%nat) (sort_by_reach_desc l).
Proof.
  unfold sort_by_reach_desc.
  eapply StronglySorted_weaken;
    [|apply isort_sorted; [apply reach_desc_total|apply reach_desc_trans]].
  intros a b H. apply Nat.leb_le. exact H.
Qed.

Lemma calculate_app_metrics_reach_sorted table :
  StronglySorted (fun a b => (reach b <= reach a)%nat)
                 (calculate_app_metrics table).
Proof.
  rewrite calculate_app_metrics_unfold. apply sort_by_reach_desc_sorted.
Qed.

(** The table [calculate_app_metrics] returns is in descending order of
    reach: every row has a reach at least that of each row after it. *)
Theorem calculate_app_metrics_sorted_by_reach :
  forall table : DataFrame,
    StronglySorted (fun a b => (reach b <= reach a)%nat)
                   (calculate_app_metrics table).
Proof. intro table. apply calculate_app_metrics_reach_sorted. Qed.

(** The rows the charts take with head(n) are the n of largest reach: a
    row left out has a reach no larger than any row taken. *)
Theorem head_of_app_metrics_has_largest_reach :
  forall (table : DataFrame) (n : nat) (shown hidden : AppMetric),
    In shown (head n (calculate_app_metrics table)) ->
    In hidden (skipn n (calculate_app_metrics table)) ->
    (reach hidden <= reach shown)%nat.
Proof.
  intros table n shown hidden Hs Hh.
  pose proof (calculate_app_metrics_reach_sorted table) as Hsorted.
  rewrite <- (firstn_skipn n (calculate_app_metrics table)) in Hsorted.
  exact (StronglySorted_app_cross _ _ _ Hsorted shown hidden Hs Hh).
Qed.

Lemma head_of_app_metrics_has_largest_reach_witness :
  (reach (metric_of mixed_table "B") <= reach (metric_of mixed_table "A"))%nat.
Proof.
  apply (head_of_app_metrics_has_largest_reach mixed_table 1).
  - vm_compute. left. reflexivity.
  - vm_compute. left. reflexivity.
Defined.

(** ** Quick Insights *)

Lemma sort_by_float_desc_sorted column l :
  StronglySorted
    (fun a b => float_desc_na_last (column a) (column b) = true)
    (sort_by_float_desc column l).
Proof.
  unfold sort_by_float_desc.
  apply (isort_sorted
           (fun a b => float_desc_na_last (column a) (column b))).
  - intros a b. apply float_desc_na_last_total.
  - intros a b c. apply float_desc_na_last_trans.
Qed.

Lemma px_cartesian_cases {A B : Type} (x : list A) (y : list B) :
  px_cartesian x y = ([], Ok tt) \/
  exists e, px_cartesian x y = ([], Raise e).
Proof.
  destruct x, y; simpl; try (left; reflexivity).
  right. eexists. reflexivity.
Qed.

(** How a run of the dashboard section ends: without a loaded table it
    draws the welcome page; with one it either raises, or reaches the
    Quick Insights panel, the aggregate having a first row. *)
Lemma render_dashboard_cases s chk sp sb :
  match data_loaded s, df s with
  | true, Some table =>
      let app_metrics := calculate_app_metrics (filter_df sp sb table) in
      (exists e, render_dashboard s chk sp sb = ([], Raise e)) \/
      (exists top rest e l,
          app_metrics = top :: rest /\
          sort_by_avg_time_per_device_desc app_metrics = e :: l /\
          render_dashboard s chk sp sb =
          ([], Ok ({| data_loaded := data_loaded s;
                     df := df s;
                     debug_mode := Some chk |},
                   Some {| top_app := top;
                           most_engaged_app := e;
                           total_apps := List.length app_metrics |})))
  | _, _ => render_dashboard s chk sp sb = ([], Ok (s, None))
  end.
Proof.
  unfold render_dashboard.
  destruct (data_loaded s) eqn:Hl; destruct (df s) as [table|] eqn:Hd;
    try reflexivity.
  cbv zeta.
  repeat match goal with
         | |- context [px_cartesian ?x ?y] =>
             destruct (px_cartesian_cases x y) as [->|[? ->]];
             [rewrite bind_nil_ok|left; eexists; reflexivity]
         end.
  destruct (calculate_app_metrics (filter_df sp sb table)) as [|top rest].
  - left. eexists. reflexivity.
  - assert (sort_by_avg_time_per_device_desc (top :: rest) <> []) as Hne.
    { unfold sort_by_avg_time_per_device_desc. intro H.
      apply isort_nil_iff in H. discriminate. }
    destruct (sort_by_avg_time_per_device_desc (top :: rest)) as [|e l];
      [congruence|].
    right. exists top, rest, e, l. repeat split.
Qed.

(** When the dashboard is drawn, the "Most Popular App" is a row of the
    aggregate with the largest reach, the "Most Engaging App" is a row
    whose avg_time_per_device is the largest one that is not NaN (it is NaN
    only when every row's is), and "Total Apps Analyzed" is the number of
    rows of the aggregate. *)
Theorem quick_insights_are_maxima :
  forall (s s' : SessionState) (table : DataFrame) (debug_checkbox : bool)
         (selected_partners selected_brands : list string)
         (q : QuickInsights),
    df s = Some table ->
    outcome (render_dashboard s debug_checkbox selected_partners
               selected_brands) = Ok (s', Some q) ->
    let app_metrics :=
      calculate_app_metrics
        (filter_df selected_partners selected_brands table) in
    In (top_app q) app_metrics /\
    In (most_engaged_app q) app_metrics /\
    total_apps q = List.length app_metrics /\
    forall m, In m app_metrics ->
      (reach m <= reach (top_app q))%nat /\
      (isna (avg_time_per_device (most_engaged_app q)) = true ->
       isna (avg_time_per_device m) = true) /\
      (isna (avg_time_per_device m) = false ->
       float_leb (avg_time_per_device m)
                 (avg_time_per_device (most_engaged_app q)) = true).
Proof.
  intros s s' table chk sp sb q Hdf Hrun app_metrics.
  pose proof (render_dashboard_cases s chk sp sb) as Hcases.
  rewrite Hdf in Hcases.
  destruct (data_loaded s);
    [|cbn iota in Hcases; rewrite Hcases in Hrun; discriminate].
  fold app_metrics in Hcases.
  destruct Hcases as [[e Hraise]|(top & rest & e & l & Ham & Hs & Hok)];
    [rewrite Hraise in Hrun; discriminate|].
  rewrite Hok in Hrun. cbn [outcome snd] in Hrun. injection Hrun as _ <-.
  pose proof (calculate_app_metrics_reach_sorted (filter_df sp sb table))
    as Hreach. fold app_metrics in Hreach.
  pose proof (sort_by_float_desc_sorted avg_time_per_device app_metrics)
    as Havg.
  change (sort_by_float_desc avg_time_per_device app_metrics)
    with (sort_by_avg_time_per_device_desc app_metrics) in Havg.
  assert (forall m, In m (sort_by_avg_time_per_device_desc app_metrics) <->
                    In m app_metrics) as Hmem.
  { intro m. unfold sort_by_avg_time_per_device_desc. apply isort_In. }
  rewrite Hs in Havg, Hmem. rewrite Ham in Hreach. cbn [top_app
    most_engaged_app total_apps].
  split; [rewrite Ham; now left|]. split; [apply Hmem; now left|].
  split; [reflexivity|].
  intros m Hm. split; [|split].
  - rewrite Ham in Hm. inversion Hreach as [|? ? _ Hall]; subst.
    destruct Hm as [<-|Hm]; [lia|].
    rewrite Forall_forall in Hall. auto.
  - intro Hnan. apply Hmem in Hm.
    inversion Havg as [|? ? _ Hall]; subst.
    destruct Hm as [<-|Hm]; [exact Hnan|].
    rewrite Forall_forall in Hall. specialize (Hall m Hm).
    exact (float_desc_na_last_nan _ _ Hall Hnan).
  - intro Hfin. apply Hmem in Hm.
    inversion Havg as [|? ? _ Hall]; subst.
    destruct Hm as [<-|Hm].
    + apply float_leb_refl, Hfin.
    + rewrite Forall_forall in Hall. specialize (Hall m Hm).
      exact (float_desc_na_last_leb _ _ Hall Hfin).
Qed.

Lemma quick_insights_are_maxima_witness :
  let s := {| data_loaded := true;
              df := Some timed_table;
              debug_mode := None |} in
  let a := metric_of timed_table "A" in
  let q := {| top_app := a; most_engaged_app := a; total_apps := 2 |} in
  let app_metrics :=
    calculate_app_metrics (filter_df ["acme"; "zeta"] ["brandx"; "brandy"]
                             timed_table) in
  In (top_app q) app_metrics /\
  In (most_engaged_app q) app_metrics /\
  total_apps q = List.length app_metrics /\
  forall m, In m app_metrics ->
    (reach m <= reach (top_app q))%nat /\
    (isna (avg_time_per_device (most_engaged_app q)) = true ->
     isna (avg_time_per_device m) = true) /\
    (isna (avg_time_per_device m) = false ->
     float_leb (avg_time_per_device m)
               (avg_time_per_device (most_engaged_app q)) = true).
Proof.
  intros s a q.
  apply (quick_insights_are_maxima s
           {| data_loaded := true;
              df := Some timed_table;
              debug_mode := Some false |}
           timed_table false ["acme"; "zeta"] ["brandx"; "brandy"] q).
  - reflexivity.
  - vm_compute. reflexivity.
Defined.

(** ** What a fetch and a load always do *)

Lemma forallb_false_witness {A : Type} (f : A -> bool) l :
  forallb f l = false -> exists x, In x l /\ f x = false.
Proof.
  induction l as [|a t IH]; simpl; [discriminate|].
  destruct (f a) eqn:Ha; simpl.
  - intro H. destruct (IH H) as [x [Hx Hf]]. exists x. auto.
  - intros _. exists a. auto.
Qed.

Lemma has_column_false raw c : has_column raw c = false -> ~ In c (columns raw).
Proof.
  unfold has_column. intros H Hin.
  assert (existsb (String.eqb c) (columns raw) = true) as Ht.
  { apply existsb_exists. exists c. split; [exact Hin|apply String.eqb_refl]. }
  congruence.
Qed.

Lemma fetch_success_or_failure env a b :
  (exists response raw, fetch_success env a b response raw) \/
  fetch_failure env a b.
Proof.
  destruct (requests_post env (fetch_request env a b)) as [response|e] eqn:Hp.
  2:{ right. eapply TransportFailure; eauto. }
  destruct (response_ok response) eqn:Hok.
  2:{ right. eapply ErrorStatus; eauto. }
  destruct (read_csv env (text response)) as [raw|e] eqn:Hcsv.
  2:{ right. eapply MalformedBody; eauto. }
  destruct (forallb (has_column raw) required_cols) eqn:Hcols.
  - left. exists response, raw. repeat split; assumption.
  - right. apply forallb_false_witness in Hcols.
    destruct Hcols as [c [Hc Hf]].
    eapply MissingColumn; eauto using has_column_false.
Qed.

Lemma fetch_success_not_failure env a b response raw :
  fetch_success env a b response raw -> fetch_failure env a b -> False.
Proof.
  intros (Hp & Hok & Hcsv & Hcols) Hfail.
  destruct Hfail as [e Hp'|r Hp' Hst|r e Hp' Hcsv'|r raw' c Hp' Hcsv' Hc Hn].
  - congruence.
  - assert (r = response) by congruence. subst. congruence.
  - assert (r = response) by congruence. subst. congruence.
  - assert (r = response) by congruence. subst.
    assert (raw' = raw) by congruence. subst.
    apply Hn. apply (has_required_columns_In raw Hcols c Hc).
Qed.

Lemma fetch_success_unique env a b response raw response' raw' :
  fetch_success env a b response raw ->
  fetch_success env a b response' raw' ->
  response' = response /\ raw' = raw.
Proof.
  intros (Hp & _ & Hcsv & _) (Hp' & _ & Hcsv' & _).
  assert (response' = response) by congruence. subst.
  split; [reflexivity|congruence].
Qed.

(** [fetch_data] never raises.  It returns a table exactly when the
    transport, the status check, the parser and the column lookups all
    succeed, and the table is then the converted response; in every other
    case it returns None. *)
Theorem fetch_data_returns_table_iff_all_steps_succeed :
  forall (env : Env) (s : SessionState) (start_date end_date : date),
  exists ev r,
    fetch_data env s start_date end_date = (ev, Ok r) /\
    (forall table,
        r = Some table <->
        exists response raw,
          fetch_success env start_date end_date response raw /\
          table = convert_frame env raw) /\
    (r = None <-> fetch_failure env start_date end_date).
Proof.
  intros env s a b.
  destruct (fetch_success_or_failure env a b) as [(response & raw & Hok)|Hfail].
  - exists (debug_events s response), (Some (convert_frame env raw)).
    split; [apply fetch_data_success; exact Hok|]. split.
    + intro table. split.
      * intro H. injection H as <-. exists response, raw. auto.
      * intros (response' & raw' & Hok' & ->).
        destruct (fetch_success_unique _ _ _ _ _ _ _ Hok Hok') as [_ ->].
        reflexivity.
    + split; [discriminate|].
      intro Hfail. exfalso. eapply fetch_success_not_failure; eauto.
  - destruct (fetch_data_failure env s a b Hfail) as (ev & msg & Heq & _).
    exists (ev ++ [ErrorShown ("Error: " ++ msg)]), None.
    split; [exact Heq|]. split.
    + intro table. split; [discriminate|].
      intros (response & raw & Hok & _). exfalso.
      eapply fetch_success_not_failure; eauto.
    + tauto.
Qed.

Lemma load_data_clicked_table env s a b ev r t :
  fetch_data env s a b = (ev, Ok (Some (r :: t))) ->
  load_data_clicked env s a b =
  (ev ++ [SuccessShown ("Successfully loaded "
                        ++ format_thousands (List.length (r :: t))
                        ++ " records")],
   Ok {| data_loaded := true;
         df := Some (r :: t);
         debug_mode := debug_mode s |}).
Proof. intro H. unfold load_data_clicked. rewrite H. reflexivity. Qed.

(** What the Load Data handler does, in full.  It never raises and never
    touches the debug flag.  Either it sets the loaded flag, and then the
    fetch succeeded with at least one row, the session holds the converted
    response and the number of its rows is reported; or it clears the flag,
    keeps the table held before and shows "Failed to load data".  In both
    cases the session satisfies: loaded flag set implies a non-empty table
    held. *)
Theorem load_data_clicked_outcome :
  forall (env : Env) (s : SessionState) (start_date end_date : date),
  exists ev s',
    load_data_clicked env s start_date end_date = (ev, Ok s') /\
    session_ok s' /\
    debug_mode s' = debug_mode s /\
    (data_loaded s' = true ->
     exists response raw,
       fetch_success env start_date end_date response raw /\
       rows raw <> [] /\
       df s' = Some (convert_frame env raw) /\
       In (SuccessShown ("Successfully loaded "
                         ++ format_thousands (List.length (rows raw))
                         ++ " records")) ev) /\
    (data_loaded s' = false ->
     df s' = df s /\ In (ErrorShown "Failed to load data") ev).
Proof.
  intros env s a b.
  destruct (fetch_success_or_failure env a b) as [(response & raw & Hok)|Hfail].
  - pose proof (fetch_data_success env s a b response raw Hok) as Hf.
    destruct (convert_frame env raw) as [|r t] eqn:Hconv.
    + eexists. eexists. split; [apply load_data_clicked_empty; exact Hf|].
      simpl. split; [intro H; discriminate|]. split; [reflexivity|].
      split; [discriminate|]. intros _. split; [reflexivity|].
      apply in_or_app. right. now left.
    + eexists. eexists. split; [apply load_data_clicked_table; exact Hf|].
      simpl. split; [|split; [reflexivity|split; [|discriminate]]].
      * intros _. exists (r :: t). split; [reflexivity|discriminate].
      * intros _. exists response, raw. split; [exact Hok|].
        assert (List.length (rows raw) = List.length (r :: t)) as Hlen.
        { rewrite <- Hconv. unfold convert_frame. now rewrite length_map. }
        split; [|split].
        -- intro Hnil. rewrite Hnil in Hlen. discriminate.
        -- rewrite Hconv. reflexivity.
        -- rewrite Hlen. apply in_or_app. right. now left.
  - destruct (fetch_data_failure env s a b Hfail) as (ev & msg & Heq & _).
    eexists. eexists. split; [apply load_data_clicked_none; exact Heq|].
    simpl. split; [intro H; discriminate|]. split; [reflexivity|].
    split; [discriminate|]. intros _. split; [reflexivity|].
    apply in_or_app. right. now left.
Qed.

(** A reload that fails blanks the dashboard without stopping the script:
    whatever the selections, the run ends normally, nothing is drawn, the
    loaded flag is cleared and the table held before is kept. *)
Theorem failed_reload_draws_nothing :
  forall (env : Env) (s : SessionState) (start_date end_date : date)
         (debug_checkbox : bool)
         (selected_partners selected_brands : list string),
    fetch_failure env start_date end_date ->
    exists ev s',
      run_script env s true start_date end_date debug_checkbox
        selected_partners selected_brands = (ev, Ok (s', None)) /\
      data_loaded s' = false /\
      df s' = df s /\
      debug_mode s' = debug_mode s.
Proof.
  intros env s a b chk sp sb Hfail.
  destruct (fetch_data_failure env s a b Hfail) as (ev & msg & Heq & _).
  unfold run_script.
  rewrite (load_data_clicked_none _ _ _ _ _ Heq), bind_ok. simpl.
  eexists. eexists. split; [reflexivity|]. auto.
Qed.

Lemma failed_reload_draws_nothing_witness :
  exists ev s',
    run_script (example_env unreachable)
      {| data_loaded := true;
         df := Some two_device_table;
         debug_mode := Some false |}
      true example_date example_date false ["acme"] ["brandx"] =
      (ev, Ok (s', None)) /\
    data_loaded s' = false /\
    df s' = Some two_device_table /\
    debug_mode s' = Some false.
Proof.
  apply (failed_reload_draws_nothing (example_env unreachable)
           {| data_loaded := true;
              df := Some two_device_table;
              debug_mode := Some false |}).
  eapply TransportFailure. reflexivity.
Defined.

(** ** Columns missing from the response *)

Lemma require_columns_app raw l1 l2 :
  (require_columns raw l1 ;;; require_columns raw l2) =
  require_columns raw (l1 ++ l2).
Proof.
  induction l1 as [|c t IH].
  - change (require_columns raw []) with (@ret unit tt).
    apply (bind_nil_ok tt).
  - unfold require_columns in *. simpl app. simpl find.
    destruct (negb (existsb (String.eqb c) (columns raw))); [reflexivity|].
    exact IH.
Qed.

Lemma require_columns_first_missing raw before c after :
  (forall c', In c' before -> In c' (columns raw)) ->
  ~ In c (columns raw) ->
  require_columns raw (before ++ c :: after) = ([], Raise (KeyError c)).
Proof.
  intros Hbefore Hc. unfold require_columns.
  induction before as [|x t IH]; simpl.
  - destruct (existsb (String.eqb c) (columns raw)) eqn:Hex; [|reflexivity].
    exfalso. apply Hc. apply existsb_exists in Hex.
    destruct Hex as [y [Hy Heq]]. apply String.eqb_eq in Heq. now subst.
  - assert (existsb (String.eqb x) (columns raw) = true) as ->.
    { apply existsb_exists. exists x.
      split; [apply Hbefore; now left|apply String.eqb_refl]. }
    simpl. apply IH. intros c' Hc'. apply Hbefore. now right.
Qed.

(** When the parsed response lacks some of the sixteen columns, the error
    shown names the first missing one in the order the script reads them
    (timestamps, then durations, then text columns), as the repr of the
    key: Error: 'column'. *)
Theorem first_missing_column_is_reported :
  forall (env : Env) (s : SessionState) (start_date end_date : date)
         (response : Response) (raw : RawFrame)
         (before : list string) (c : string) (after : list string),
    requests_post env (fetch_request env start_date end_date) = Ok response ->
    response_ok response = true ->
    read_csv env (text response) = Ok raw ->
    required_cols = before ++ c :: after ->
    (forall c', In c' before -> In c' (columns raw)) ->
    ~ In c (columns raw) ->
    fetch_data env s start_date end_date =
      (debug_events s response ++ [ErrorShown ("Error: '" ++ c ++ "'")],
       Ok None).
Proof.
  intros env s a b response raw before c after Hp Hok Hcsv Hreq Hbefore Hc.
  unfold fetch_data. rewrite (fetch_data_try_response _ _ _ _ _ Hp).
  rewrite (raise_for_status_ok _ Hok), Hcsv, bind_nil_ok, bind_lift_ok.
  assert ((require_columns raw timestamp_cols ;;;
           require_columns raw numeric_cols ;;;
           require_columns raw string_cols ;;;
           ret (Some (convert_frame env raw))) =
          (require_columns raw required_cols ;;;
           ret (Some (convert_frame env raw)))) as ->.
  { unfold required_cols.
    rewrite <- !require_columns_app.
    destruct (require_columns raw timestamp_cols) as [ev1 [[]|e1]];
      destruct (require_columns raw numeric_cols) as [ev2 [[]|e2]];
      destruct (require_columns raw string_cols) as [ev3 [[]|e3]];
      simpl; rewrite ?app_nil_r, ?app_assoc; reflexivity. }
  rewrite Hreq, (require_columns_first_missing raw before c after Hbefore Hc).
  simpl. rewrite app_nil_r. reflexivity.
Qed.

Lemma first_missing_column_is_reported_witness :
  fetch_data (example_env (respond 200 "OK" "partner,token,package"))
    initial_state example_date example_date =
  ([ErrorShown "Error: 'last_time_used'"], Ok None).
Proof.
  eapply (first_missing_column_is_reported
            (example_env (respond 200 "OK" "partner,token,package"))
            initial_state example_date example_date _ _
            [] "last_time_used" (tl required_cols)).
  - reflexivity.
  - reflexivity.
  - reflexivity.
  - reflexivity.
  - intros c' [].
  - vm_compute. intros [H|[H|[H|[]]]]; discriminate.
Defined.

(** ** The key figures *)

Lemma unique_In x col : In x (unique col) <-> In x col.
Proof. unfold unique. rewrite <- in_rev, nodup_In, <- in_rev. reflexivity. Qed.

Lemma unique_NoDup col : NoDup (unique col).
Proof. unfold unique. apply NoDup_rev, NoDup_nodup. Qed.

Lemma NoDup_map_Some (l : list string) : NoDup l -> NoDup (map Some l).
Proof.
  intro H. induction H as [|x l Hx Hl IH]; simpl; constructor.
  - rewrite in_map_iff. intros [y [Hy Hin]]. injection Hy as ->. contradiction.
  - exact IH.
Qed.

(** The number of distinct present values is at most the number of
    distinct values of any column that holds them all. *)
Lemma nunique_le_unique sub col :
  (forall v, In (Some v) sub -> In (Some v) col) ->
  (nunique sub <= List.length (unique col))%nat.
Proof.
  intro Hincl. unfold nunique.
  rewrite <- (length_map Some). apply NoDup_incl_length.
  - apply NoDup_map_Some, NoDup_nodup.
  - intros x Hx. apply in_map_iff in Hx. destruct Hx as [v [<- Hv]].
    apply nodup_In, dropna_In in Hv. apply unique_In, Hincl, Hv.
Qed.

(** No app reaches more devices than the "Total Unique Devices" figure
    computed from the same table. *)
Theorem reach_le_total_unique_devices :
  forall (table : DataFrame) (m : AppMetric),
    In m (calculate_app_metrics table) ->
    (reach m <= total_unique_devices table)%nat.
Proof.
  intros table m Hin. apply calculate_app_metrics_In in Hin.
  destruct Hin as [k [_ ->]].
  change (reach (metric_of table k))
    with (nunique (map hardware_id (group table k))).
  apply nunique_le_unique. intros v Hv.
  apply in_map_iff in Hv. destruct Hv as [r [Hh Hr]].
  apply group_In in Hr. apply in_map_iff. exists r. tauto.
Qed.

Lemma reach_le_total_unique_devices_witness :
  (reach (metric_of mixed_table "A") <= total_unique_devices mixed_table)%nat.
Proof.
  apply (reach_le_total_unique_devices mixed_table).
  vm_compute. left. reflexivity.
Defined.

Lemma filter_filter_implied {A : Type} (f g : A -> bool) l :
  (forall x, f x = true -> g x = true) ->
  filter f (filter g l) = filter f l.
Proof.
  intro Himp. induction l as [|a t IH]; simpl; [reflexivity|].
  destruct (g a) eqn:Hg; simpl.
  - destruct (f a); [f_equal|]; exact IH.
  - destruct (f a) eqn:Hf; [|exact IH].
    rewrite (Himp a Hf) in Hg. discriminate.
Qed.

(** "Active Devices (7d)" never exceeds "Total Unique Devices", whatever
    the current time, and rows without a timestamp never count as active. *)
Theorem active_devices_le_total_unique_devices :
  forall (now : Z) (table : DataFrame),
    (active_devices now table <= total_unique_devices table)%nat /\
    active_devices now table =
    active_devices now
      (filter (fun r => match last_time_used r with
                        | Some _ => true
                        | None => false
                        end) table).
Proof.
  intros now table. split.
  - unfold active_devices, total_unique_devices.
    apply nunique_le_unique. intros v Hv.
    apply in_map_iff in Hv. destruct Hv as [r [Hh Hr]].
    apply filter_In in Hr. apply in_map_iff. exists r. tauto.
  - unfold active_devices. f_equal. f_equal. symmetry.
    apply filter_filter_implied. intros r. unfold used_since.
    destruct (last_time_used r); [reflexivity|discriminate].
Qed.

Lemma has_missing_dec (col : list (option string)) :
  {In None col} + {~ In None col}.
Proof. apply in_dec, option_string_dec. Qed.

Lemma unique_length col :
  List.length (unique col) =
  (List.length (nodup string_dec (dropna col))
   + if has_missing_dec col then 1 else 0)%nat.
Proof.
  set (keys := nodup string_dec (dropna col)).
  assert (forall v, In v keys <-> In (Some v) col) as Hkeys.
  { intro v. unfold keys. rewrite nodup_In. apply dropna_In. }
  destruct (has_missing_dec col) as [Hnone|Hnone].
  - rewrite (Permutation_length
               (l' := None :: map Some keys)).
    + simpl. rewrite length_map. lia.
    + apply NoDup_Permutation.
      * apply unique_NoDup.
      * constructor.
        -- rewrite in_map_iff. intros [v [Hv _]]. discriminate.
        -- apply NoDup_map_Some, NoDup_nodup.
      * intros [v|]; rewrite unique_In; simpl; rewrite in_map_iff.
        -- split.
           ++ intro H. right. exists v. split; [reflexivity|]. now apply Hkeys.
           ++ intros [H|[w [Hw Hin]]]; [discriminate|].
              injection Hw as ->. now apply Hkeys.
        -- tauto.
  - rewrite (Permutation_length (l' := map Some keys)).
    + rewrite length_map. lia.
    + apply NoDup_Permutation.
      * apply unique_NoDup.
      * apply NoDup_map_Some, NoDup_nodup.
      * intros [v|]; rewrite unique_In, in_map_iff.
        -- split.
           ++ intro H. exists v. split; [reflexivity|]. now apply Hkeys.
           ++ intros [w [Hw Hin]]. injection Hw as ->. now apply Hkeys.
        -- split; [contradiction|]. intros [w [Hw _]]. discriminate.
Qed.

Lemma calculate_app_metrics_length table :
  List.length (calculate_app_metrics table) =
  List.length (nodup string_dec (dropna (map package table))).
Proof.
  rewrite calculate_app_metrics_unfold. unfold sort_by_reach_desc.
  rewrite <- (Permutation_length (isort_perm _ _)), length_map.
  unfold groupby_keys.
  rewrite <- (Permutation_length (isort_perm _ _)). reflexivity.
Qed.

(** "Total Apps Tracked" counts a missing package as an app, the aggregate
    does not: the figure is the number of rows of the aggregate, plus one
    when some row of the table has no package. *)
Theorem total_apps_tracked_vs_app_metrics :
  forall table : DataFrame,
    total_apps_tracked table =
    (List.length (calculate_app_metrics table)
     + if existsb (fun r => match package r with
                            | Some _ => false
                            | None => true
                            end) table
       then 1 else 0)%nat.
Proof.
  intro table. unfold total_apps_tracked.
  rewrite unique_length, calculate_app_metrics_length. f_equal.
  destruct (has_missing_dec (map package table)) as [H|H];
    destruct (existsb _ table) eqn:Hex; try reflexivity; exfalso.
  - apply in_map_iff in H. destruct H as [r [Hp Hr]].
    assert (existsb (fun r => match package r with
                              | Some _ => false
                              | None => true
                              end) table = true) as Ht.
    { apply existsb_exists. exists r. rewrite Hp. auto. }
    congruence.
  - apply existsb_exists in Hex. destruct Hex as [r [Hr Hp]].
    apply H, in_map_iff. exists r. split; [|exact Hr].
    destruct (package r); [discriminate|reflexivity].
Qed.

(** ** The default selection *)

Lemma filter_options_In v col : In v (filter_options col) <-> In (Some v) col.
Proof.
  unfold filter_options. rewrite isort_In, dropna_In. apply unique_In.
Qed.

Lemma isin_filter_options col c :
  In c col -> c <> None -> isin (filter_options col) c = true.
Proof.
  intros Hin Hc. destruct c as [v|]; [|congruence]. simpl.
  apply existsb_exists. exists v.
  split; [apply filter_options_In; exact Hin|apply String.eqb_refl].
Qed.

Lemma filter_all {A : Type} (f : A -> bool) l :
  (forall x, In x l -> f x = true) -> filter f l = l.
Proof.
  intro H. induction l as [|a t IH]; simpl; [reflexivity|].
  rewrite (H a (or_introl eq_refl)). f_equal. apply IH.
  intros x Hx. apply H. now right.
Qed.

(** In a fetched table every text cell is present. *)
Lemma fetched_rows_text env raw r :
  In r (convert_frame env raw) ->
  partner r <> None /\ brand r <> None /\ package r <> None.
Proof.
  unfold convert_frame. rewrite in_map_iff. intros [row [<- _]].
  unfold convert_row. simpl.
  repeat split;
    match goal with
    | |- astype_str ?c <> None => destruct c; discriminate
    end.
Qed.

Lemma default_selection_filters_nothing table :
  (forall r, In r table -> partner r <> None /\ brand r <> None) ->
  filter_df (filter_options (map partner table))
            (filter_options (map brand table)) table = table.
Proof.
  intro Hpresent. unfold filter_df. apply filter_all.
  intros r Hr. destruct (Hpresent r Hr) as [Hp Hb].
  apply andb_true_iff. split; apply isin_filter_options; auto using in_map.
Qed.

(** With the selection the sidebar starts from, every partner and every
    brand of the table, the filter keeps every row of a table that
    [fetch_data] returned. *)
Theorem default_selection_keeps_every_fetched_row :
  forall (env : Env) (raw : RawFrame),
    let table := convert_frame env raw in
    filter_df (filter_options (map partner table))
              (filter_options (map brand table)) table = table.
Proof.
  intros env raw table. apply default_selection_filters_nothing.
  intros r Hr. destruct (fetched_rows_text env raw r Hr) as (Hp & Hb & _).
  auto.
Qed.

(** ** More on the aggregate *)

(** For an app seen on exactly one device, the time per device is the
    total time. *)
Theorem single_device_time_is_total_time :
  forall (table : DataFrame) (m : AppMetric),
    In m (calculate_app_metrics table) ->
    reach m = 1%nat ->
    avg_time_per_device m = total_time m.
Proof.
  intros table m Hin Hreach. apply calculate_app_metrics_In in Hin.
  destruct Hin as [k [_ ->]].
  change (avg_time_per_device (metric_of table k))
    with (round_decimals 2
            (fdiv_int
               (fdiv_int (nansum (foreground_seconds table k))
                         (Z.of_nat (reach (metric_of table k))))
               3600)).
  change (total_time (metric_of table k))
    with (round_decimals 2
            (fdiv_int (nansum (foreground_seconds table k)) 3600)).
  rewrite Hreach. simpl Z.of_nat. rewrite fdiv_int_one. reflexivity.
Qed.

Lemma single_device_time_is_total_time_witness :
  let m := metric_of mixed_table "B" in
  avg_time_per_device m = total_time m.
Proof.
  intro m. apply (single_device_time_is_total_time mixed_table m).
  - vm_compute. right. left. reflexivity.
  - reflexivity.
Defined.

Lemma reach_eq_of_same_ids t1 t2 k :
  (forall h, In h (device_ids t1 k) <-> In h (device_ids t2 k)) ->
  reach (metric_of t1 k) = reach (metric_of t2 k).
Proof.
  intro Hsame. rewrite !metric_of_reach. apply Permutation_length.
  apply NoDup_Permutation; [apply NoDup_nodup|apply NoDup_nodup|exact Hsame].
Qed.

(** The packages and their reach do not depend on the order of the rows:
    the aggregate of a reordered table has, for each row of the original
    aggregate, a row with the same package and the same reach. *)
Theorem reach_independent_of_row_order :
  forall (t1 t2 : DataFrame) (m1 : AppMetric),
    Permutation t1 t2 ->
    In m1 (calculate_app_metrics t1) ->
    exists m2,
      In m2 (calculate_app_metrics t2) /\
      metric_package m2 = metric_package m1 /\
      reach m2 = reach m1.
Proof.
  intros t1 t2 m1 Hperm Hin. apply calculate_app_metrics_In in Hin.
  destruct Hin as [k [Hk ->]]. exists (metric_of t2 k). split; [|split].
  - apply calculate_app_metrics_In. exists k. split; [|reflexivity].
    eapply Permutation_in; [apply Permutation_map; exact Hperm|exact Hk].
  - reflexivity.
  - apply reach_eq_of_same_ids. intro h. rewrite !device_ids_In.
    split; intros (r & Hr & Hrest); exists r; split; auto.
    + eapply Permutation_in; [apply Permutation_sym; exact Hperm|exact Hr].
    + eapply Permutation_in; [exact Hperm|exact Hr].
Qed.

Lemma reach_independent_of_row_order_witness :
  exists m2,
    In m2 (calculate_app_metrics (rev two_device_table)) /\
    metric_package m2 = "A" /\
    reach m2 = 2%nat.
Proof.
  apply (reach_independent_of_row_order two_device_table
           (rev two_device_table) (metric_of two_device_table "A")).
  - apply Permutation_rev.
  - vm_compute. left. reflexivity.
Defined.

(** A further observation of a device already seen with a package changes
    no reach: with the row added anywhere in the table, every package of
    the aggregate keeps its reach (the row's duration still enters the
    sums). *)
Theorem repeated_observation_keeps_reach :
  forall (before after : DataFrame) (r seen : UsageRecord) (m' : AppMetric),
    In seen (before ++ after) ->
    package seen = package r ->
    hardware_id seen = hardware_id r ->
    In m' (calculate_app_metrics (before ++ r :: after)) ->
    exists m,
      In m (calculate_app_metrics (before ++ after)) /\
      metric_package m = metric_package m' /\
      reach m = reach m'.
Proof.
  intros before after r seen m' Hseen Hpkg Hid Hin.
  assert (forall x, In x (before ++ r :: after) <->
                    x = r \/ In x (before ++ after)) as Hmem.
  { intro x. rewrite !in_app_iff. simpl. intuition congruence. }
  apply calculate_app_metrics_In in Hin. destruct Hin as [k [Hk ->]].
  exists (metric_of (before ++ after) k). split; [|split].
  - apply calculate_app_metrics_In. exists k. split; [|reflexivity].
    apply in_map_iff in Hk. destruct Hk as [x [Hp Hx]].
    apply in_map_iff. apply Hmem in Hx. destruct Hx as [->|Hx].
    + exists seen. split; [congruence|exact Hseen].
    + exists x. auto.
  - reflexivity.
  - apply reach_eq_of_same_ids. intro h. rewrite !device_ids_In. split.
    + intros (x & Hx & Hp & Hh). exists x. split; [|auto].
      apply Hmem. now right.
    + intros (x & Hx & Hp & Hh). apply Hmem in Hx. destruct Hx as [->|Hx].
      * exists seen. repeat split; [exact Hseen|congruence|congruence].
      * exists x. auto.
Qed.

Lemma repeated_observation_keeps_reach_witness :
  exists m,
    In m (calculate_app_metrics ([usage_row "A" "d1" (Int64 3600)] ++ [])) /\
    metric_package m = "A" /\
    reach m = 1%nat.
Proof.
  apply (repeated_observation_keeps_reach
           [usage_row "A" "d1" (Int64 3600)] []
           (usage_row "A" "d1" (Int64 7200))
           (usage_row "A" "d1" (Int64 3600))
           (metric_of [usage_row "A" "d1" (Int64 3600);
                       usage_row "A" "d1" (Int64 7200)] "A")).
  - left. reflexivity.
  - reflexivity.
  - reflexivity.
  - vm_compute. left. reflexivity.
Defined.

(** ** The metrics table *)






(** ** Device statistics *)

Lemma list_sum_perm l l' : Permutation l l' -> list_sum l = list_sum l'.
Proof.
  intro H. induction H; simpl; lia.
Qed.

Lemma dropna_NoDup l : NoDup l -> NoDup (dropna l).
Proof.
  intro H. induction H as [|c l Hc Hl IH]; simpl; [constructor|].
  destruct c as [v|]; simpl; [|exact IH].
  constructor; [|exact IH]. rewrite dropna_In. exact Hc.
Qed.

Lemma indicator_sum_one (a : string) keys :
  NoDup keys -> In a keys ->
  list_sum (map (fun v => if string_dec a v then 1 else 0)%nat keys) = 1%nat.
Proof.
  intro Hnd. induction Hnd as [|x l Hx Hl IH]; intro Hin; [contradiction|].
  simpl. destruct (string_dec a x) as [->|Hne].
  - assert (list_sum (map (fun v => if string_dec x v then 1 else 0)%nat l)
            = 0%nat) as ->; [|reflexivity].
    clear IH Hin Hl. induction l as [|y t IHt]; simpl; [reflexivity|].
    destruct (string_dec x y) as [->|_].
    + exfalso. apply Hx. now left.
    + apply IHt. intro H. apply Hx. now right.
  - destruct Hin as [Heq|Hin]; [congruence|]. simpl. apply IH, Hin.
Qed.

Lemma count_occ_sum (l keys : list string) :
  NoDup keys -> (forall x, In x l -> In x keys) ->
  list_sum (map (count_occ string_dec l) keys) = List.length l.
Proof.
  intros Hnd. induction l as [|a t IH]; intro Hincl.
  - simpl. clear. induction keys as [|k ks IHk]; simpl; [reflexivity|].
    exact IHk.
  - assert (list_sum (map (count_occ string_dec (a :: t)) keys) =
            (list_sum (map (count_occ string_dec t) keys)
             + list_sum (map (fun v => if string_dec a v then 1 else 0)%nat
                             keys))%nat) as ->.
    { clear. induction keys as [|k ks IHk]; simpl; [reflexivity|].
      destruct (string_dec a k); simpl in *; lia. }
    rewrite IH by (intros x Hx; apply Hincl; now right).
    rewrite (indicator_sum_one a keys Hnd) by (apply Hincl; now left).
    simpl. lia.
Qed.

(** [value_counts] lists each present value once, most frequent first,
    with a count of at least one, and the counts add up to the number of
    rows whose value is present: the bars of a distribution chart account
    for every such row exactly once. *)
Theorem value_counts_partition_the_rows :
  forall col : list (option string),
    list_sum (map snd (value_counts col)) = List.length (dropna col) /\
    NoDup (map fst (value_counts col)) /\
    StronglySorted (fun a b => (snd b <= snd a)%nat) (value_counts col) /\
    (forall v n, In (v, n) (value_counts col) ->
                 In (Some v) col /\ (1 <= n)%nat).
Proof.
  intro col.
  set (keys := dropna (unique col)).
  assert (NoDup keys) as Hnd by (apply dropna_NoDup, unique_NoDup).
  assert (forall v, In v keys <-> In (Some v) col) as Hkeys.
  { intro v. unfold keys. rewrite dropna_In. apply unique_In. }
  set (counted := map (fun v => (v, count_occ string_dec (dropna col) v)) keys).
  assert (Permutation counted (value_counts col)) as Hperm
      by apply isort_perm.
  split; [|split; [|split]].
  - rewrite <- (list_sum_perm _ _ (Permutation_map snd Hperm)).
    unfold counted. rewrite map_map. simpl.
    apply count_occ_sum; [exact Hnd|].
    intros x Hx. apply Hkeys, dropna_In, Hx.
  - eapply Permutation_NoDup; [apply Permutation_map; exact Hperm|].
    unfold counted. rewrite map_map. simpl. rewrite map_id. exact Hnd.
  - unfold value_counts.
    eapply StronglySorted_weaken;
      [|apply (isort_sorted (fun a b : string * nat => Nat.leb (snd b) (snd a)))].
    + intros a b H. apply Nat.leb_le. exact H.
    + intros a b. rewrite !Nat.leb_le. lia.
    + intros a b c. rewrite !Nat.leb_le. lia.
  - intros v n Hin.
    apply (Permutation_in _ (Permutation_sym Hperm)) in Hin.
    unfold counted in Hin. apply in_map_iff in Hin.
    destruct Hin as [w [Heq Hw]]. injection Heq as -> <-.
    apply Hkeys in Hw. split; [exact Hw|].
    apply dropna_In in Hw.
    apply (count_occ_In string_dec) in Hw. lia.
Qed.

(** ** Usage by hour *)

Lemma StronglySorted_NoDup_lt l :
  StronglySorted (fun a b => Z.leb a b = true) l -> NoDup l ->
  StronglySorted Z.lt l.
Proof.
  intros Hs Hnd. induction Hs as [|a l Hl IH Ha]; [constructor|].
  inversion Hnd as [|? ? Hnotin Hnd']; subst.
  constructor; [apply IH, Hnd'|].
  rewrite Forall_forall in *. intros x Hx.
  specialize (Ha x Hx). apply Z.leb_le in Ha.
  assert (x <> a) by (intro; subst; contradiction). lia.
Qed.

Lemma hours_used_In h table :
  In h (hours_used table) <->
  exists r ts, In r table /\ last_time_used r = Some ts /\ hour_of ts = h.
Proof.
  unfold hours_used. rewrite isort_In, nodup_In, in_flat_map. split.
  - intros [r [Hr Hh]]. destruct (last_time_used r) as [ts|] eqn:Hts;
      simpl in Hh; [|contradiction].
    destruct Hh as [<-|[]]. exists r, ts. auto.
  - intros (r & ts & Hr & Hts & <-). exists r. split; [exact Hr|].
    rewrite Hts. now left.
Qed.

(** The hourly usage series has one point per hour of the day in which
    some row was last used: its hours lie in 0..23, strictly increase (so
    there are at most 24 points), and rows without a timestamp contribute
    no point. *)
Theorem hourly_usage_hours :
  forall table : DataFrame,
    StronglySorted Z.lt (map fst (hourly_usage table)) /\
    (List.length (hourly_usage table) <= 24)%nat /\
    (forall h, In h (map fst (hourly_usage table)) <->
               exists r ts, In r table /\ last_time_used r = Some ts
                            /\ hour_of ts = h) /\
    (forall h, In h (map fst (hourly_usage table)) -> 0 <= h < 24).
Proof.
  intro table.
  assert (map fst (hourly_usage table) = hours_used table) as Hfst.
  { unfold hourly_usage. rewrite map_map. simpl. apply map_id. }
  assert (NoDup (hours_used table)) as Hnd.
  { unfold hours_used.
    eapply Permutation_NoDup; [apply isort_perm|apply NoDup_nodup]. }
  assert (forall h, In h (hours_used table) -> 0 <= h < 24) as Hrange.
  { intros h Hh. apply hours_used_In in Hh.
    destruct Hh as (r & ts & _ & _ & <-). unfold hour_of.
    apply Z.mod_pos_bound. lia. }
  rewrite Hfst. split; [|split; [|split]].
  - apply StronglySorted_NoDup_lt; [|exact Hnd].
    unfold hours_used. apply isort_sorted.
    + intros a b. rewrite !Z.leb_le. lia.
    + intros a b c. rewrite !Z.leb_le. lia.
  - rewrite <- (length_map fst), Hfst.
    change 24%nat with (List.length (map Z.of_nat (seq 0 24))).
    apply NoDup_incl_length; [exact Hnd|].
    intros h Hh. specialize (Hrange h Hh). apply in_map_iff.
    exists (Z.to_nat h). split; [lia|]. apply in_seq. lia.
  - intro h. apply hours_used_In.
  - exact Hrange.
Qed.

(** ** Runs of the script *)

Lemma render_dashboard_state s chk sp sb ev s' q :
  render_dashboard s chk sp sb = (ev, Ok (s', q)) ->
  data_loaded s' = data_loaded s /\ df s' = df s /\
  (q <> None -> debug_mode s' = Some chk) /\
  (q = None -> s' = s).
Proof.
  intro Hrun. pose proof (render_dashboard_cases s chk sp sb) as Hcases.
  destruct (data_loaded s) eqn:Hl; destruct (df s) as [table|] eqn:Hd;
    try (rewrite Hcases in Hrun; injection Hrun as _ <- <-;
         rewrite ?Hl, ?Hd; repeat split; congruence).
  destruct Hcases as [[e Hraise]|(top & rest & e & l & _ & _ & Hok)];
    [rewrite Hraise in Hrun; discriminate|].
  rewrite Hok in Hrun. injection Hrun as _ <- <-. cbn [data_loaded df
    debug_mode]. repeat split; congruence.
Qed.

(** Every run of the script that ends normally keeps the session
    consistent: if the loaded flag is set afterwards, a table with at least
    one row is held.  A run without a click on Load Data changes neither
    the flag nor the table. *)
Theorem run_script_keeps_session_consistent :
  forall (env : Env) (s s' : SessionState) (load_clicked : bool)
         (start_date end_date : date) (debug_checkbox : bool)
         (selected_partners selected_brands : list string)
         (ev : list ui_event) (q : option QuickInsights),
    session_ok s ->
    run_script env s load_clicked start_date end_date debug_checkbox
      selected_partners selected_brands = (ev, Ok (s', q)) ->
    session_ok s' /\
    (load_clicked = false ->
     data_loaded s' = data_loaded s /\ df s' = df s).
Proof.
  intros env s s' clicked a b chk sp sb ev q Hs Hrun.
  unfold run_script in Hrun.
  assert (exists ev1 s1,
             (if clicked then load_data_clicked env s a b else ret s) =
             (ev1, Ok s1) /\
             session_ok s1 /\
             (clicked = false -> s1 = s)) as (ev1 & s1 & Hfirst & Hs1 & Hsame).
  { destruct clicked.
    - destruct (fetch_success_or_failure env a b)
        as [(response & raw & Hok)|Hfail].
      + pose proof (fetch_data_success env s a b response raw Hok) as Hf.
        destruct (convert_frame env raw) as [|r t] eqn:Hconv.
        * eexists. eexists.
          split; [apply load_data_clicked_empty; exact Hf|].
          split; [intro H; discriminate|discriminate].
        * eexists. eexists.
          split; [apply load_data_clicked_table; exact Hf|].
          split; [|discriminate].
          intros _. exists (r :: t). split; [reflexivity|discriminate].
      + destruct (fetch_data_failure env s a b Hfail) as (ev' & msg & Heq & _).
        eexists. eexists. split; [apply load_data_clicked_none; exact Heq|].
        split; [intro H; discriminate|discriminate].
    - exists [], s. auto. }
  rewrite Hfirst, bind_ok in Hrun.
  destruct (render_dashboard s1 chk sp sb) as [ev2 [[s2 q2]|e]] eqn:Hrender;
    [|discriminate].
  unfold events, outcome in Hrun. simpl in Hrun. injection Hrun as _ <- <-.
  destruct (render_dashboard_state _ _ _ _ _ _ _ Hrender)
    as (Hl & Hd & _ & _).
  split.
  - unfold session_ok in *. rewrite Hl, Hd. exact Hs1.
  - intro Hc. rewrite (Hsame Hc) in Hl, Hd. auto.
Qed.

Lemma run_script_keeps_session_consistent_witness :
  let loaded := {| data_loaded := true;
                   df := Some early_table;
                   debug_mode := None |} in
  let q := {| top_app := metric_of early_table "A";
              most_engaged_app := metric_of early_table "A";
              total_apps := 1 |} in
  let s' := {| data_loaded := true;
               df := Some early_table;
               debug_mode := Some true |} in
  session_ok s' /\
  (false = false ->
   data_loaded s' = data_loaded loaded /\ df s' = df loaded).
Proof.
  intros loaded q s'.
  apply (run_script_keeps_session_consistent (example_env unreachable)
           loaded s' false example_date example_date true
           ["acme"] ["brandx"] [] (Some q)).
  - intros _. exists early_table. split; [reflexivity|discriminate].
  - vm_compute. reflexivity.
Defined.

(** ** Debug lines *)

Lemma substring_length_le n s : (String.length (substring 0 n s) <= n)%nat.
Proof.
  revert s. induction n as [|n IH]; intro s; destruct s as [|c t]; simpl;
    try lia.
  specialize (IH t). lia.
Qed.

Lemma fetch_data_plain_events env a b :
  forallb (fun e => negb (is_written e))
          (events (fetch_data env initial_state a b)) = true.
Proof.
  destruct (fetch_success_or_failure env a b) as [(response & raw & Hok)|Hfail].
  - rewrite (fetch_data_success env initial_state a b response raw Hok).
    reflexivity.
  - unfold fetch_data.
    destruct Hfail as [e Hp|r Hp Hst|r e Hp Hcsv|r raw c Hp Hcsv Hc Hn].
    + unfold fetch_data_try. rewrite Hp. reflexivity.
    + rewrite (fetch_data_try_response _ _ _ _ _ Hp).
      destruct (raise_for_status_error _ Hst) as [msg ->]. reflexivity.
    + rewrite (fetch_data_try_response _ _ _ _ _ Hp).
      destruct (response_ok r) eqn:Hst.
      * rewrite (raise_for_status_ok _ Hst), Hcsv. reflexivity.
      * destruct (raise_for_status_error _ Hst) as [msg ->]. reflexivity.
    + rewrite (fetch_data_try_response _ _ _ _ _ Hp).
      destruct (response_ok r) eqn:Hst.
      * rewrite (raise_for_status_ok _ Hst), Hcsv, bind_nil_ok, bind_lift_ok.
        destruct (require_columns_cases raw timestamp_cols)
          as [[-> _]|(c1 & _ & _ & ->)]; [|reflexivity].
        destruct (require_columns_cases raw numeric_cols)
          as [[-> _]|(c2 & _ & _ & ->)]; [|reflexivity].
        destruct (require_columns_cases raw string_cols)
          as [[-> _]|(c3 & _ & _ & ->)]; reflexivity.
      * destruct (raise_for_status_error _ Hst) as [msg ->]. reflexivity.
Qed.

Lemma filter_none {A : Type} (f : A -> bool) l :
  forallb (fun x => negb (f x)) l = true -> filter f l = [].
Proof.
  induction l as [|a t IH]; simpl; [reflexivity|].
  destruct (f a); simpl; [discriminate|exact IH].
Qed.

(** The lines debug mode writes are exactly these: nothing when the debug
    flag of the session is off or the transport failed; otherwise the
    status, the headers and a preview of at most 500 characters of the
    response, also when the status is an error or the body is not a
    table. *)
Theorem debug_lines_shown_for_every_response :
  forall (env : Env) (s : SessionState) (start_date end_date : date),
    filter is_written (events (fetch_data env s start_date end_date)) =
    match requests_post env (fetch_request env start_date end_date) with
    | Ok response =>
        if get_debug_mode s then
          [Written "Response Status Code:" (ShownInt (status_code response));
           Written "Response Headers:" (ShownDict (headers response));
           Written "Response Preview:"
             (ShownText (substring 0 500 (text response)))]
        else []
    | Raise _ => []
    end /\
    forall label preview,
      In (Written label (ShownText preview))
         (events (fetch_data env s start_date end_date)) ->
      (String.length preview <= 500)%nat.
Proof.
  intros env s a b.
  assert (filter is_written (events (fetch_data env s a b)) =
          match requests_post env (fetch_request env a b) with
          | Ok response => debug_events s response
          | Raise _ => []
          end) as Hlines.
  { rewrite (fetch_data_debug_prefix env s a b). unfold events at 1.
    simpl fst. rewrite filter_app.
    rewrite (filter_none _ _ (fetch_data_plain_events env a b)), app_nil_r.
    destruct (requests_post env (fetch_request env a b)) as [response|e];
      [|reflexivity].
    apply filter_all. intros x Hx.
    pose proof (debug_events_written s response) as Hw.
    rewrite forallb_forall in Hw. auto. }
  split.
  - rewrite Hlines.
    destruct (requests_post env (fetch_request env a b)); reflexivity.
  - intros label preview Hin.
    assert (In (Written label (ShownText preview))
               (filter is_written (events (fetch_data env s a b)))) as Hf.
    { apply filter_In. split; [exact Hin|reflexivity]. }
    rewrite Hlines in Hf.
    destruct (requests_post env (fetch_request env a b)) as [response|e];
      [|contradiction].
    unfold debug_events in Hf. destruct (get_debug_mode s); [|contradiction].
    simpl in Hf. destruct Hf as [H|[H|[H|[]]]]; try discriminate.
    injection H as _ <-. apply substring_length_le.
Qed.

(** ** Figures over time and over one app *)

Lemma nunique_incl sub sup :
  (forall v, In (Some v) sub -> In (Some v) sup) ->
  (nunique sub <= nunique sup)%nat.
Proof.
  intro Hincl. unfold nunique. apply NoDup_incl_length; [apply NoDup_nodup|].
  intros v Hv. apply nodup_In, dropna_In in Hv.
  apply nodup_In, dropna_In, Hincl, Hv.
Qed.

(** With the table unchanged, "Active Devices (7d)" can only shrink as
    time passes. *)
Theorem active_devices_shrink_over_time :
  forall (now later : Z) (table : DataFrame),
    now <= later ->
    (active_devices later table <= active_devices now table)%nat.
Proof.
  intros now later table Hle. unfold active_devices.
  apply nunique_incl. intros v Hv.
  apply in_map_iff in Hv. destruct Hv as [r [Hh Hr]].
  apply filter_In in Hr. destruct Hr as [Hr Hused].
  apply in_map_iff. exists r. split; [exact Hh|].
  apply filter_In. split; [exact Hr|].
  unfold used_since in *. destruct (last_time_used r) as [ts|];
    [|discriminate].
  apply Z.leb_le in Hused. apply Z.leb_le. lia.
Qed.

Lemma active_devices_shrink_over_time_witness :
  (active_devices (seven_days + 100) early_table
   <= active_devices (seven_days + 10) early_table)%nat.
Proof.
  apply active_devices_shrink_over_time. unfold seven_days. lia.
Defined.


(** ** Export and re-import *)











(** Decimal numerals are plain texts. *)







(** What a plain text gives as a field. *)








(** The types of the columns read back. *)











